(** * AluhaSOC: event normalisation, queue hand-off and alert fan-out

    A shallow embedding of the Python sources
    ([agents/base_agent.py], [agents/splunk/splunk_agent.py],
    [agents/wazuh/wazuh_agent.py], [agents/aws/aws_agent.py],
    [agents/run_agents.py], [analysis/message_bus.py],
    [analysis/llm/engine.py], [notifications/notifier.py]) and the
    properties of the specification checked against it. *)

From Stdlib Require Import QArith Ascii String.
From stdpp Require Import gmap strings list fin_maps.

Local Open Scope string_scope.
Local Open Scope Z_scope.
Local Open Scope list_scope.

(** ** Python values and exceptions *)

(** Values that travel through the pipeline: what [json.loads] can
    produce.  Numbers are rationals, which covers Python's [int] and every
    finite [float]; a Python [dict] with string keys is a finite map. *)
#[warnings="-register-all"]
Inductive json : Type :=
| JNull
| JBool (b : bool)
| JNum (q : Q)
| JStr (s : string)
| JArr (l : list json)
| JObj (m : gmap string json).

Abbreviation dict := (gmap string json).

(** Instances of Python's [Exception], by class name and message. *)
Record Exn : Type := mkExn { exn_class : string; exn_msg : string }.

Definition ValueError := mkExn "ValueError".
Definition TypeError := mkExn "TypeError".
Definition AttributeError := mkExn "AttributeError".
Definition ConnectionError := mkExn "ConnectionError".

(** The outcome of evaluating a Python expression: a value or a raised
    exception. *)
Inductive Res (A : Type) : Type :=
| Ret (a : A)
| Raise (e : Exn).
Arguments Ret {A} a.
Arguments Raise {A} e.

Global Instance res_ret : MRet Res := λ A a, Ret a.
Global Instance res_bind : MBind Res := λ A B k r,
  match r with Ret a => k a | Raise e => Raise e end.

(** [try: body except Exception: handler]. *)
Definition try_except {A} (body : Res A) (handler : Exn → Res A) : Res A :=
  match body with Ret a => Ret a | Raise e => handler e end.

Definition returns {A} (r : Res A) : Prop := ∃ a, r = Ret a.

Module Py.

(** Looking up the method [get]: only a [dict] has it. *)
Definition the_dict (obj : json) : Res dict :=
  match obj with
  | JObj m => Ret m
  | _ => Raise (AttributeError "object has no attribute 'get'")
  end.

(** [d.get(key, default)] on a [dict]. *)
Definition dget (d : dict) (key : string) (dflt : json) : json :=
  default dflt (d !! key).

(** [obj.get(key, default)] on any value. *)
Definition get (obj : json) (key : string) (dflt : json) : Res json :=
  d ← the_dict obj; mret (dget d key dflt).

(** The number a value stands for in an order comparison with an [int]:
    [bool] is a subclass of [int]; [None], [str], [list] and [dict] are
    not orderable against a number. *)
Definition as_number (v : json) : Res Q :=
  match v with
  | JNum q => Ret q
  | JBool b => Ret (if b then 1%Q else 0%Q)
  | _ => Raise (TypeError "'>=' not supported between these instances")
  end.

(** [a >= b] on numbers. *)
Definition ge (a b : Q) : bool := Qle_bool b a.

End Py.

(** ** Severity taxonomy *)

Definition canonical_severities : list string :=
  ["critical"; "high"; "medium"; "low"].

Module Severity.

(** [AWSAgent._map_guardduty_severity], on GuardDuty's 0-10 scale. *)
Definition _map_guardduty_severity (severity : Q) : string :=
  if Py.ge severity 7 then "critical"
  else if Py.ge severity 4 then "high"
  else if Py.ge severity 2 then "medium"
  else "low".

(** [AWSAgent._map_securityhub_severity], on Security Hub's normalized
    0-100 scale. *)
Definition _map_securityhub_severity (severity : Z) : string :=
  if severity >=? 70 then "critical"
  else if severity >=? 40 then "high"
  else if severity >=? 20 then "medium"
  else "low".

(** [WazuhAgent._map_severity], applied to a rule level that already
    compared as a number. *)
Definition _map_severity (level : Q) : string :=
  if Py.ge level 15 then "critical"
  else if Py.ge level 10 then "high"
  else if Py.ge level 5 then "medium"
  else "low".

End Severity.

(** ** Stateful code: state passing with exceptions

    A method body maps the state before to an outcome and the state after;
    what a body changed before it raised stays changed. *)

Definition M (Σ A : Type) : Type := Σ → Res A * Σ.

Global Instance m_ret {Σ} : MRet (M Σ) := λ A a σ, (Ret a, σ).
Global Instance m_bind {Σ} : MBind (M Σ) := λ A B k m σ,
  match m σ with
  | (Ret a, σ') => k a σ'
  | (Raise e, σ') => (Raise e, σ')
  end.

Definition raise {Σ A} (e : Exn) : M Σ A := λ σ, (Raise e, σ).
Definition gets {Σ A} (f : Σ → A) : M Σ A := λ σ, (Ret (f σ), σ).
Definition modify {Σ} (f : Σ → Σ) : M Σ unit := λ σ, (Ret tt, f σ).
Definition pure_res {Σ A} (r : Res A) : M Σ A := λ σ, (r, σ).

(** [try: body except Exception as e: handler e]. *)
Definition m_try {Σ A} (body : M Σ A) (handler : Exn → M Σ A) : M Σ A :=
  λ σ, match body σ with
       | (Ret a, σ') => (Ret a, σ')
       | (Raise e, σ') => handler e σ'
       end.

(** [try: body finally: cleanup]: the cleanup runs on both exits, and an
    exception it raises replaces the outcome of the body. *)
Definition m_finally {Σ A} (body : M Σ A) (cleanup : M Σ unit) : M Σ A :=
  λ σ, match body σ with
       | (r, σ') =>
           match cleanup σ' with
           | (Ret _, σ'') => (r, σ'')
           | (Raise e, σ'') => (Raise e, σ'')
           end
       end.

(** Run a computation on a component of the state. *)
Definition zoom {Σ T A} (get : Σ → T) (set : T → Σ → Σ) (m : M T A) : M Σ A :=
  λ σ, match m (get σ) with (r, t) => (r, set t σ) end.

(** The wall clock: every [datetime.now()] is a fresh reading. *)
Record World : Type := mkWorld {
  wall_clock : nat → Z;
  readings : nat
}.

Definition datetime_now : M World Z :=
  λ w, (Ret (wall_clock w (readings w)), mkWorld (wall_clock w) (S (readings w))).

(** ** Source connectors: [agents/base_agent.py] *)

Module BaseLogAgent.

(** What a connector's own methods work on: the world and the connector's
    session state (clients, credentials, sessions). *)
Record Site (C : Type) : Type := mkSite { world : World; session : C }.
Arguments mkSite {C}.
Arguments world {C}.
Arguments session {C}.

(** The abstract methods of [BaseLogAgent]. *)
Record Connector (C : Type) : Type := mkConnector {
  connect : M (Site C) bool;
  disconnect : M (Site C) unit;
  fetch_logs : option Z → option Z → M (Site C) (list json);
  parse_log : json → M (Site C) json
}.
Arguments connect {C}.
Arguments disconnect {C}.
Arguments fetch_logs {C}.
Arguments parse_log {C}.

(** An agent object: the connector's site and the watermark. *)
Record Agent (C : Type) : Type := mkAgent { site : Site C; last_run : option Z }.
Arguments mkAgent {C}.
Arguments site {C}.
Arguments last_run {C}.

Section Base.
Context {C : Type} (K : Connector C).

Definition on_site {A} (m : M (Site C) A) : M (Agent C) A :=
  zoom site (λ s ag, mkAgent s (last_run ag)) m.

Definition on_world {A} (m : M World A) : M (Site C) A :=
  zoom world (λ w s, mkSite w (session s)) m.

Definition now : M (Site C) Z := on_world datetime_now.

(** The loop of [process_logs], with [processed_logs] as accumulator. *)
Fixpoint process_loop (processed_logs : list json) (logs : list json)
  : M (Site C) (list json) :=
  match logs with
  | [] => mret processed_logs
  | log :: rest =>
      processed_logs' ← m_try
        (processed_log ← parse_log K log;
         mret (processed_logs ++ [processed_log]))
        (λ e, mret processed_logs);
      process_loop processed_logs' rest
  end.

Definition process_logs (logs : list json) : M (Site C) (list json) :=
  process_loop [] logs.

(** [run]: the [try] block, its [except Exception] and its [finally]. *)
Definition run_body : M (Agent C) (list json) :=
  ok ← on_site (connect K);
  if negb ok then raise (ConnectionError "Failed to connect to log source")
  else
    logs ← on_site (fetch_logs K None None);
    processed_logs ← on_site (process_logs logs);
    t ← on_site now;
    modify (λ ag, mkAgent (site ag) (Some t));;
    mret processed_logs.

Definition run : M (Agent C) (list json) :=
  m_finally (m_try run_body (λ e, mret [])) (on_site (disconnect K)).

End Base.

End BaseLogAgent.

(** ** The Splunk connector: [agents/splunk/splunk_agent.py] *)

Module SplunkAgent.
Import BaseLogAgent.

(** The search the connector submits: [index], [earliest] and [latest] of
    the query string. *)
Record Query : Type := mkQuery { q_index : string; earliest : Z; latest : Z }.

(** What the server reports for a search job. *)
Record Job : Type := mkJob {
  is_done : bool;           (* [job.is_done()] at the first poll *)
  resultCount : Z;          (* [int(job["resultCount"])] *)
  results : list dict       (* [job.results(count=0)] *)
}.

(** The Splunk server and client library, as the connector sees them. *)
Record Server : Type := mkServer {
  new_service : Res unit;           (* [Service(host=..., ...)] *)
  logout : Res unit;                (* [service.logout()] *)
  jobs_create : Query → Res Job     (* [service.jobs.create(search_query)] *)
}.

(** [self.service], and the searches submitted so far. *)
Record Session : Type := mkSession { service : bool; submitted : list Query }.

Section Splunk.
Variable isoformat : Z → string.
Variable srv : Server.
Variable index : string.             (* [config.get('index', 'main')] *)
Variable search_interval : Z.        (* [config.get('search_interval', 300)] *)

Definition on_session {A} (m : M Session A) : M (Site Session) A :=
  zoom session (λ c s, mkSite (world s) c) m.

Definition connect : M (Site Session) bool :=
  m_try
    (pure_res (new_service srv);;
     on_session (modify (λ c, mkSession true (submitted c)));;
     mret true)
    (λ e, mret false).

Definition disconnect : M (Site Session) unit :=
  has ← gets (λ s : Site Session, service (session s));
  if (has : bool) then pure_res (logout srv) else mret tt.

Definition fetch_logs (start_time end_time : option Z)
  : M (Site Session) (list json) :=
  start_time ← match start_time with
               | None => t ← now; mret (t - search_interval)
               | Some t => mret t
               end;
  end_time ← match end_time with
             | None => now
             | Some t => mret t
             end;
  let search_query := mkQuery index start_time end_time in
  m_try
    (has ← gets (λ s : Site Session, service (session s));
     if negb (has : bool)
     then raise (AttributeError "'NoneType' object has no attribute 'jobs'")
     else
       on_session (modify (λ c, mkSession (service c) (submitted c ++ [search_query])));;
       job ← pure_res (jobs_create srv search_query);
       (* [while not job.is_done(): time.sleep(1)]: the module never
          imports [time] *)
       if negb (is_done job)
       then raise (mkExn "NameError" "name 'time' is not defined")
       else if resultCount job =? 0 then mret []
       else mret (JObj <$> results job))
    (λ e, mret []).

Definition parse_log (log : json) : M (Site Session) json :=
  m_try
    (d ← pure_res (Py.the_dict log);
     t ← now;
     mret (JObj (list_to_map [
       ("timestamp", Py.dget d "_time" (JStr (isoformat t)));
       ("source", Py.dget d "source" (JStr "unknown"));
       ("sourcetype", Py.dget d "sourcetype" (JStr "unknown"));
       ("host", Py.dget d "host" (JStr "unknown"));
       ("raw", Py.dget d "_raw" (JStr ""));
       ("severity", Py.dget d "severity" (JStr "info"));
       ("event_type", Py.dget d "eventtype" (JStr "unknown"));
       ("source_ip", Py.dget d "src_ip" (JStr ""));
       ("destination_ip", Py.dget d "dest_ip" (JStr ""));
       ("user", Py.dget d "user" (JStr ""));
       ("action", Py.dget d "action" (JStr ""));
       ("status", Py.dget d "status" (JStr ""));
       ("message", Py.dget d "message" (JStr ""))])))
    (λ e, mret (JObj ∅)).

Definition connector : Connector Session :=
  mkConnector Session connect disconnect fetch_logs parse_log.

End Splunk.
End SplunkAgent.

(** ** The Wazuh connector: [agents/wazuh/wazuh_agent.py] *)

Module WazuhAgent.

Section Wazuh.
Variable isoformat : Z → string.
Variable json_dumps : json → string.

(** [_map_severity(level)] on whatever the record holds as level. *)
Definition _map_severity (level : json) : Res string :=
  q ← Py.as_number level; mret (Severity._map_severity q).

Definition rule_get (source : json) (key : string) (dflt : json) : Res json :=
  rule ← Py.get source "rule" (JObj ∅); Py.get rule key dflt.

Definition parse_log (log : json) : M World json :=
  m_try
    (source ← pure_res (Py.get log "_source" (JObj ∅));
     src ← pure_res (Py.the_dict source);
     t ← datetime_now;
     pure_res (
       agent ← Py.get source "agent" (JObj ∅);
       agent_name ← Py.get agent "name" (JStr "unknown");
       rule_level ← rule_get source "level" (JStr "unknown");
       level ← rule_get source "level" (JNum 0);
       severity ← _map_severity level;
       event_type ← rule_get source "description" (JStr "unknown");
       data ← Py.get source "data" (JObj ∅);
       win ← Py.get data "win" (JObj ∅);
       eventdata ← Py.get win "eventdata" (JObj ∅);
       user ← Py.get eventdata "user" (JStr "");
       action ← rule_get source "action" (JStr "");
       status ← rule_get source "status" (JStr "");
       message ← rule_get source "description" (JStr "");
       mret (JObj (list_to_map [
         ("timestamp", Py.dget src "timestamp" (JStr (isoformat t)));
         ("source", JStr "wazuh");
         ("agent", agent_name);
         ("rule", rule_level);
         ("severity", JStr severity);
         ("event_type", event_type);
         ("source_ip", Py.dget src "sourceip" (JStr ""));
         ("destination_ip", Py.dget src "destinationip" (JStr ""));
         ("user", user);
         ("action", action);
         ("status", status);
         ("message", message);
         ("raw", JStr (json_dumps source))]))))
    (λ e, mret (JObj ∅)).

End Wazuh.
End WazuhAgent.

(** ** The message bus: [analysis/message_bus.py] *)

Module MessageBus.

(** [self.queues]. *)
Definition queues : list (string * string) :=
  [("logs", "security_logs");
   ("analysis", "security_analysis");
   ("alerts", "security_alerts");
   ("investigations", "security_investigations")].

(** [queue in self.queues.values()]. *)
Definition declared (queue : string) : bool :=
  bool_decide (queue ∈ queues.*2).

Section Bus.
(** The message body on the wire, with [json.dumps] and [json.loads]. *)
Context {Body : Type}.
Variable json_dumps : json → Body.
Variable json_loads : Body → Res json.
Variable isoformat : Z → string.

(** The broker behind [self.channel]: whether the channel is usable,
    and the messages ready in each queue, oldest first. *)
Record Channel : Type := mkChannel {
  is_open : bool;
  ready : gmap string (list Body)
}.

(** The process: its clock, its [dict] objects by reference, the
    channel, and the state [H] of the consumer's callback. *)
Record State (H : Type) : Type := mkState {
  world : World;
  heap : gmap positive dict;
  channel : Channel;
  handler : H
}.
Arguments mkState {H}.
Arguments world {H}.
Arguments heap {H}.
Arguments channel {H}.
Arguments handler {H}.

Section Methods.
Context {H : Type}.

Definition pending (queue : string) (σ : State H) : list Body :=
  default [] (ready (channel σ) !! queue).

Definition set_pending (queue : string) (l : list Body) (σ : State H)
  : State H :=
  mkState (world σ) (heap σ)
    (mkChannel (is_open (channel σ)) (<[queue := l]> (ready (channel σ))))
    (handler σ).

Definition now : M (State H) Z :=
  zoom world (λ w σ, mkState w (heap σ) (channel σ) (handler σ)) datetime_now.

(** [obj[key] = value] on the object a reference denotes. *)
Definition setitem (obj : positive) (key : string) (value : json)
  : M (State H) unit :=
  λ σ, match heap σ !! obj with
       | Some d =>
           (Ret tt, mkState (world σ) (<[obj := <[key := value]> d]> (heap σ))
                      (channel σ) (handler σ))
       | None =>
           (Raise (TypeError "object does not support item assignment"), σ)
       end.

Definition deref (obj : positive) : M (State H) json :=
  λ σ, match heap σ !! obj with
       | Some d => (Ret (JObj d), σ)
       | None => (Raise (TypeError "not a dict"), σ)
       end.

(** [channel.basic_publish(exchange='', routing_key=queue, body=...)]. *)
Definition basic_publish (queue : string) (body : Body) : M (State H) unit :=
  λ σ, if is_open (channel σ)
       then (Ret tt, set_pending queue (pending queue σ ++ [body]) σ)
       else (Raise (mkExn "ChannelWrongStateError" "Channel is closed."), σ).

Definition publish (queue : string) (message : positive) : M (State H) unit :=
  m_try
    (if negb (declared queue)
     then raise (ValueError ("Invalid queue: " +:+ queue))
     else
       t ← now;
       setitem message "timestamp" (JStr (isoformat t));;
       m ← deref message;
       basic_publish queue (json_dumps m))
    (λ e, raise e).

(** How a delivery is settled. *)
Inductive Settled : Type := Acked | Nacked.

(** [_callback(ch, method, properties, body)] of [consume].  The body
    delivered is in flight: it is no longer ready in the queue. *)
Definition _callback (callback : json → M (State H) unit) (body : Body)
  : M (State H) Settled :=
  m_try
    (message ← pure_res (json_loads body);
     callback message;;
     mret Acked)
    (λ e, mret Nacked).

(** One turn of [start_consuming]: the oldest ready message, if any,
    goes to [_callback]; an acknowledged message is gone, a rejected
    one is ready again at the front ([basic_nack] requeues). *)
Definition deliver_next (queue : string) (callback : json → M (State H) unit)
  : M (State H) bool :=
  l ← gets (pending queue);
  match l : list Body with
  | [] => mret false
  | body :: rest =>
      modify (set_pending queue rest);;
      s ← _callback callback body;
      match s : Settled with
      | Acked => mret true
      | Nacked =>
          l' ← gets (pending queue);
          modify (set_pending queue (body :: l'));;
          mret true
      end
  end.

Fixpoint deliveries (n : nat) (queue : string)
  (callback : json → M (State H) unit) : M (State H) unit :=
  match n with
  | O => mret tt
  | S n' => deliver_next queue callback;; deliveries n' queue callback
  end.

(** [consume], observed for the first [n] turns of the blocking
    [start_consuming] loop. *)
Definition consume (n : nat) (queue : string)
  (callback : json → M (State H) unit) : M (State H) unit :=
  m_try
    (if negb (declared queue)
     then raise (ValueError ("Invalid queue: " +:+ queue))
     else
       open ← gets (λ σ : State H, is_open (channel σ));
       if negb (open : bool)
       then raise (mkExn "ChannelWrongStateError" "Channel is closed.")
       else deliveries n queue callback)
    (λ e, raise e).

End Methods.
End Bus.

Arguments mkState {Body H}.
Arguments world {Body H}.
Arguments heap {Body H}.
Arguments channel {Body H}.
Arguments handler {Body H}.
Arguments mkChannel {Body}.
Arguments is_open {Body}.
Arguments ready {Body}.

End MessageBus.

(** ** The collection scheduler: [agents/run_agents.py] *)

Module AgentRunner.
Import BaseLogAgent.

(** The lines the runner writes to its logger. *)
Inductive LogLine : Type :=
| NotFound (agent_name : string)
| Running (agent_name : string)
| Collected (n : nat) (agent_name : string)
| NoNewLogs (agent_name : string)
| ErrorRunning (agent_name : string) (e : Exn).

(** An entry of [self.agents]: the connector class and the instance's
    own state. *)
Record Managed (C : Type) : Type := mkManaged {
  kind : Connector C;
  conn : C;
  watermark : option Z
}.
Arguments mkManaged {C}.
Arguments kind {C}.
Arguments conn {C}.
Arguments watermark {C}.

(** The collection process next to the broker of the deployment. *)
Record Deployment (C Body : Type) : Type := mkDeployment {
  clock : World;
  agents : gmap string (Managed C);
  logger : list LogLine;
  broker : MessageBus.Channel (Body := Body)
}.
Arguments mkDeployment {C Body}.
Arguments clock {C Body}.
Arguments agents {C Body}.
Arguments logger {C Body}.
Arguments broker {C Body}.

Section Runner.
Context {C Body : Type}.

Definition log (l : LogLine) : M (Deployment C Body) unit :=
  modify (λ d, mkDeployment (clock d) (agents d) (logger d ++ [l]) (broker d)).

(** [agent.run()] on the instance registered under [agent_name]. *)
Definition agent_run (agent_name : string) (a : Managed C)
  : M (Deployment C Body) (list json) :=
  λ d,
    match run (kind a) (mkAgent (mkSite (clock d) (conn a)) (watermark a)) with
    | (r, ag) =>
        (r, mkDeployment (world (site ag))
              (<[agent_name := mkManaged (kind a) (session (site ag)) (last_run ag)]>
                 (agents d))
              (logger d) (broker d))
    end.

Definition run_agent (agent_name : string) : M (Deployment C Body) unit :=
  found ← gets (λ d : Deployment C Body, agents d !! agent_name);
  match found : option (Managed C) with
  | None => log (NotFound agent_name)
  | Some agent =>
      m_try
        (log (Running agent_name);;
         logs ← agent_run agent_name agent;
         match logs : list json with
         | _ :: _ =>
             (* "Process logs here (e.g., send to message bus)" *)
             log (Collected (length logs) agent_name)
         | [] => log (NoNewLogs agent_name)
         end)
        (λ e, log (ErrorRunning agent_name e))
  end.

End Runner.
End AgentRunner.

(** ** String methods used by the response parser *)

Module PyStr.

Definition newline : ascii := ascii_of_nat 10.

(** [c.isspace()] for an ASCII character. *)
Definition isspace (c : ascii) : bool :=
  let n := nat_of_ascii c in
  ((9 <=? n)%nat && (n <=? 13)%nat) || ((28 <=? n)%nat && (n <=? 32)%nat).

(** [s.split(sep)] for a separator of one character. *)
Fixpoint split (sep : ascii) (s : string) : list string :=
  match s with
  | EmptyString => [""]
  | String c s' =>
      if Ascii.eqb c sep then "" :: split sep s'
      else match split sep s' with
           | h :: t => String c h :: t
           | [] => [String c ""]
           end
  end.

Fixpoint lstrip (s : string) : string :=
  match s with
  | EmptyString => ""
  | String c s' => if isspace c then lstrip s' else s
  end.

Fixpoint rstrip (s : string) : string :=
  match s with
  | EmptyString => ""
  | String c s' =>
      match rstrip s' with
      | EmptyString => if isspace c then "" else String c ""
      | r => String c r
      end
  end.

Definition strip (s : string) : string := rstrip (lstrip s).

Definition lower_char (c : ascii) : ascii :=
  let n := nat_of_ascii c in
  if ((65 <=? n)%nat && (n <=? 90)%nat) then ascii_of_nat (n + 32) else c.

Fixpoint lower (s : string) : string :=
  match s with
  | EmptyString => ""
  | String c s' => String (lower_char c) (lower s')
  end.

(** [sub in s]. *)
Fixpoint contains (sub s : string) : bool :=
  String.prefix sub s ||
  match s with
  | EmptyString => false
  | String _ s' => contains sub s'
  end.

(** [s.split(':')[-1]]. *)
Definition after_last_colon (s : string) : string :=
  List.last (split ":"%char s) "".

End PyStr.

(** ** The analysis engine: [analysis/llm/engine.py] *)

Module LLMAnalysisEngine.

(** The result of an analysis: the four keys of the returned [dict]. *)
Record Analysis : Type := mkAnalysis {
  severity : string;
  impact : string;
  recommendations : list string;
  iocs : list string
}.

(** The configuration and the model, as [analyze_security_event] uses
    them. *)
Record Engine : Type := mkEngine {
  (* [config['prompts']['security_analysis'].format(event_details=...)] *)
  security_analysis_prompt : string → Res string;
  (* tokenize, [model.generate], [tokenizer.decode] *)
  generate : string → Res string
}.

Inductive Section_ : Type := SImpact | SRecommendations | SIocs.

Section Engine_.
(** [str(v)], as an f-string formats a value. *)
Variable str : json → string.
Variable eng : Engine.

Definition field (label : string) (event : json) (key : string) : Res string :=
  v ← Py.get event key (JStr "unknown");
  mret (String PyStr.newline ("        " +:+ label +:+ ": " +:+ str v)).

Definition _format_event_details (event : json) : Res string :=
  timestamp ← field "Timestamp" event "timestamp";
  source ← field "Source" event "source";
  event_type ← field "Event Type" event "event_type";
  severity ← field "Severity" event "severity";
  source_ip ← field "Source IP" event "source_ip";
  destination_ip ← field "Destination IP" event "destination_ip";
  user ← field "User" event "user";
  action ← field "Action" event "action";
  status ← field "Status" event "status";
  message ← field "Message" event "message";
  mret (timestamp +:+ source +:+ event_type +:+ severity +:+ source_ip +:+
        destination_ip +:+ user +:+ action +:+ status +:+ message +:+
        String PyStr.newline "        ").

(** One turn of the loop of [_parse_analysis_response]. *)
Definition parse_line (acc : Analysis * option Section_) (line : string)
  : Analysis * option Section_ :=
  let '(result, current_section) := acc in
  let line := PyStr.strip line in
  if String.eqb line "" then acc
  else if PyStr.contains "severity" (PyStr.lower line) then
    (mkAnalysis (PyStr.strip (PyStr.after_last_colon line)) (impact result)
       (recommendations result) (iocs result), current_section)
  else if PyStr.contains "impact" (PyStr.lower line) then (result, Some SImpact)
  else if PyStr.contains "recommend" (PyStr.lower line) then
    (result, Some SRecommendations)
  else if PyStr.contains "indicator" (PyStr.lower line) then (result, Some SIocs)
  else match current_section with
       | Some SImpact =>
           (mkAnalysis (severity result) (impact result +:+ line +:+ " ")
              (recommendations result) (iocs result), current_section)
       | Some SRecommendations =>
           (mkAnalysis (severity result) (impact result)
              (recommendations result ++ [line]) (iocs result), current_section)
       | Some SIocs =>
           (mkAnalysis (severity result) (impact result)
              (recommendations result) (iocs result ++ [line]), current_section)
       | None => acc
       end.

Definition _parse_analysis_response (response : string) : Analysis :=
  fst (foldl parse_line (mkAnalysis "unknown" "" [] [], None)
         (PyStr.split PyStr.newline response)).

(** The [dict] returned by the [except] branch. *)
Definition fallback : Analysis :=
  mkAnalysis "unknown" "Error during analysis" ["Investigate analysis error"] [].

(** The [try] block of [analyze_security_event]. *)
Definition analysis_attempt (event : json) : Res Analysis :=
  event_details ← _format_event_details event;
  prompt ← security_analysis_prompt eng event_details;
  response ← generate eng prompt;
  mret (_parse_analysis_response response).

Definition analyze_security_event (event : json) : Res Analysis :=
  try_except (analysis_attempt event) (λ e, Ret fallback).

End Engine_.
End LLMAnalysisEngine.

(** ** Alert fan-out: [notifications/notifier.py] *)

Module Notifier.

(** The payload posted to the Slack webhook: the one attachment. *)
Record SlackMessage : Type := mkSlackMessage {
  color : string;
  title : string;
  fields : list (string * json * bool);   (* title, value, short *)
  recommendations : string;
  footer : string;
  ts : Z
}.

Record Email : Type := mkEmail {
  from_ : option string;
  to_ : json;
  subject : string;
  body : list string     (* the values formatted into the body, in order *)
}.

(** The instance: webhook, SMTP settings and the loaded configuration. *)
Record Config : Type := mkConfig {
  slack_webhook_url : option string;
  smtp_username : option string;
  smtp_password : option string;
  from_email : option string;
  default_recipients : option json   (* [config['default_recipients']] *)
}.

(** The transports; the outcome may differ from one attempt to the next. *)
Record Transport : Type := mkTransport {
  requests_post : nat → string → SlackMessage → Res unit;
  smtp_send : nat → Email → Res unit
}.

(** What the notifier did: each call of a channel's sender, and each
    message a transport accepted. *)
Inductive Sent : Type := ToSlack (m : SlackMessage) | ToEmail (m : Email).

Record State : Type := mkState {
  world : World;
  attempted : list string;
  delivered : list Sent
}.

(** Truth value of an optional string: [None] and [''] are false. *)
Definition truthy (s : option string) : bool :=
  match s with
  | None => false
  | Some s => negb (String.eqb s "")
  end.

Definition severity_colors : list (string * string) :=
  [("critical", "#FF0000"); ("high", "#FFA500");
   ("medium", "#FFFF00"); ("low", "#00FF00")].

Section Notifier_.
Variable str : json → string.                (* [str(v)] in an f-string *)
Variable join_lines : json → Res string.     (* ['\n'.join(v)] *)
Variable strftime : Z → string.              (* [t.strftime('%Y-%m-%d %H:%M:%S')] *)
Variable cfg : Config.
Variable net : Transport.

Definition now : M State Z :=
  zoom world (λ w σ, mkState w (attempted σ) (delivered σ)) datetime_now.

Definition note_attempt (channel : string) : M State unit :=
  modify (λ σ, mkState (world σ) (attempted σ ++ [channel]) (delivered σ)).

Definition note_delivered (m : Sent) : M State unit :=
  modify (λ σ, mkState (world σ) (attempted σ) (delivered σ ++ [m])).

(** [v.lower()]: a method of [str] only. *)
Definition lower (v : json) : Res string :=
  match v with
  | JStr s => Ret (PyStr.lower s)
  | _ => Raise (AttributeError "object has no attribute 'lower'")
  end.

Definition _send_slack_alert (alert : dict) : M State unit :=
  note_attempt "slack";;
  if negb (truthy (slack_webhook_url cfg))
  then raise (ValueError "Slack webhook URL not configured")
  else
    sev ← pure_res (lower (Py.dget alert "severity" (JStr "medium")));
    recs ← pure_res (join_lines
             (Py.dget alert "recommendations" (JArr [JStr "No recommendations"])));
    t1 ← now;
    t2 ← now;
    let message := mkSlackMessage
      (default "#808080" (list_to_map (M := gmap string string) severity_colors !! sev))
      ("Security Alert: " +:+ str (Py.dget alert "title" (JStr "Unknown Alert")))
      [("Severity", Py.dget alert "severity" (JStr "Unknown"), true);
       ("Source", Py.dget alert "source" (JStr "Unknown"), true);
       ("Description", Py.dget alert "description" (JStr "No description provided"), false);
       ("Impact", Py.dget alert "impact" (JStr "No impact assessment"), false)]
      recs ("AluhaSOC | " +:+ strftime t1) t2 in
    n ← gets (λ σ, length (attempted σ));
    pure_res (requests_post net n (default "" (slack_webhook_url cfg)) message);;
    note_delivered (ToSlack message).

Definition _send_email_alert (alert : dict) : M State unit :=
  note_attempt "email";;
  if negb (truthy (smtp_username cfg) && truthy (smtp_password cfg))
  then raise (ValueError "SMTP credentials not configured")
  else
    match default_recipients cfg with
    | None => raise (mkExn "KeyError" "'default_recipients'")
    | Some rcpt =>
        t ← now;
        recs ← pure_res (join_lines
                 (Py.dget alert "recommendations" (JArr [JStr "No recommendations"])));
        let msg := mkEmail (from_email cfg) (Py.dget alert "recipients" rcpt)
          ("Security Alert: " +:+ str (Py.dget alert "title" (JStr "Unknown Alert")))
          [str (Py.dget alert "title" (JStr "Unknown Alert"));
           str (Py.dget alert "severity" (JStr "Unknown"));
           str (Py.dget alert "source" (JStr "Unknown"));
           strftime t;
           str (Py.dget alert "description" (JStr "No description provided"));
           str (Py.dget alert "impact" (JStr "No impact assessment"));
           recs;
           str (Py.dget alert "additional_info" (JStr "No additional information"))] in
        n ← gets (λ σ, length (attempted σ));
        m_try (pure_res (smtp_send net n msg)) (λ e, raise e);;
        note_delivered (ToEmail msg)
    end.

(** The [try] block of the loop: the sender of the channel; a name
    that is neither ['slack'] nor ['email'] has none. *)
Definition deliver (alert : dict) (channel : string) : M State unit :=
  if String.eqb channel "slack" then _send_slack_alert alert
  else if String.eqb channel "email" then _send_email_alert alert
  else mret tt.

(** One turn of the [for] loop. *)
Definition send_one (alert : dict) (channel : string) : M State unit :=
  m_try (deliver alert channel) (λ e, mret tt).

Fixpoint send_each (alert : dict) (channels : list string) : M State unit :=
  match channels with
  | [] => mret tt
  | channel :: rest => send_one alert channel;; send_each alert rest
  end.

(** [if not channels: channels = ['slack', 'email']]. *)
Definition channels_or_default (channels : option (list string)) : list string :=
  match channels with
  | None | Some [] => ["slack"; "email"]
  | Some l => l
  end.

Definition send_alert (alert : dict) (channels : option (list string))
  : M State unit :=
  send_each alert (channels_or_default channels).

End Notifier_.
End Notifier.

(** ** Vocabulary of the statements *)

Module Cycle.
Import BaseLogAgent.

Section Cycle_.
Context {C : Type} (K : Connector C).

(** The outcome of translating each record of a batch, one after the
    other, and the site after the last. *)
Fixpoint translations (logs : list json) (s : Site C)
  : list (Res json) * Site C :=
  match logs with
  | [] => ([], s)
  | log :: rest =>
      match parse_log K log s with
      | (r, s') =>
          match translations rest s' with
          | (rs, s'') => (r :: rs, s'')
          end
      end
  end.

(** The cycle has no connector-level failure: [connect] returns [True]
    and [fetch_logs] returns. *)
Definition succeeds (ag : Agent C) : Prop :=
  ∃ s1 logs s2,
    connect K (site ag) = (Ret true, s1) ∧
    fetch_logs K None None s1 = (Ret logs, s2).

(** [disconnect] keeps to its signature: it returns, whatever the site. *)
Definition disconnect_safe : Prop :=
  ∀ s, ∃ s', disconnect K s = (Ret tt, s').

End Cycle_.

(** The values among a list of outcomes, in order. *)
Definition successes {A} (rs : list (Res A)) : list A :=
  omap (λ r, match r with Ret a => Some a | Raise _ => None end) rs.

(** The events a caller of [run] gets. *)
Definition produced (out : Res (list json)) : list json :=
  match out with Ret l => l | Raise _ => [] end.

(** The reading the next [datetime.now()] gives. *)
Definition next_reading (w : World) : Z := wall_clock w (readings w).

End Cycle.

Module BusSpec.
Import MessageBus.

(** The process after the assignment [message['timestamp'] = ...] of
    [publish], when [message] denotes the dict [m]. *)
Definition stamped {Body H} (isoformat : Z → string) (message : positive)
    (m : dict) (σ : State (Body := Body) H) : State H :=
  mkState (mkWorld (wall_clock (world σ)) (S (readings (world σ))))
    (<[message := <["timestamp" := JStr (isoformat (Cycle.next_reading (world σ)))]> m]>
       (heap σ))
    (channel σ) (handler σ).

End BusSpec.

Module FanOut.

(** The channel names [send_alert] has a sender for. *)
Definition supported (channel : string) : bool :=
  String.eqb channel "slack" || String.eqb channel "email".

End FanOut.

(** ** Sample instances

    Small concrete connectors, servers and messages on which the
    statements below are exercised. *)

Module Sample.
Import BaseLogAgent.

(** A clock that starts at 5000 and advances by one at each reading. *)
Definition clock0 : World := mkWorld (λ n, 5000 + Z.of_nat n) 0.

(** A connector without session state: [connect] and [fetch_logs] do as
    told, and the translation of a [null] record raises. *)
Definition probe (can_connect : bool) (batch : Res (list json)) : Connector unit :=
  mkConnector unit
    (mret can_connect)
    (mret tt)
    (λ _ _, pure_res batch)
    (λ log, match log with
            | JNull => raise (ValueError "empty record")
            | _ => mret log
            end).

Definition probe_agent (last : option Z) : Agent unit :=
  mkAgent (mkSite clock0 tt) last.

Definition isoformat0 (t : Z) : string := "2024-06-01T12:00:00".

(** A Splunk server that accepts the login and answers every search
    with a finished job holding one result. *)
Definition splunk0 : SplunkAgent.Server :=
  SplunkAgent.mkServer (Ret tt) (Ret tt)
    (λ q, Ret (SplunkAgent.mkJob true 1 [{["severity" := JStr "informational"]}])).

Definition splunk_connector : Connector SplunkAgent.Session :=
  SplunkAgent.connector isoformat0 splunk0 "main" 300.

Definition splunk_agent (last : option Z) : Agent SplunkAgent.Session :=
  mkAgent (mkSite clock0 (SplunkAgent.mkSession false [])) last.

(** A canonical event held by the publisher, and a bus whose wire
    format is the value itself. *)
Definition event0 : dict :=
  <["severity" := JStr "high"]> {["timestamp" := JStr "2024-01-01T00:00:00"]}.

Definition bus0 : MessageBus.State (Body := json) (list json) :=
  MessageBus.mkState clock0 {[1%positive := event0]}
    (MessageBus.mkChannel true ∅) [].

(** A callback that keeps what it is given. *)
Definition recorder (message : json)
  : M (MessageBus.State (Body := json) (list json)) unit :=
  modify (λ σ, MessageBus.mkState (MessageBus.world σ) (MessageBus.heap σ)
                 (MessageBus.channel σ) (MessageBus.handler σ ++ [message])).

(** The collection process with the Splunk agent registered, next to a
    broker with no message. *)
Definition deployment0 : AgentRunner.Deployment SplunkAgent.Session json :=
  AgentRunner.mkDeployment clock0
    {["splunk" := AgentRunner.mkManaged splunk_connector
                    (SplunkAgent.mkSession false []) None]}
    [] (MessageBus.mkChannel true ∅).

Definition str0 (v : json) : string :=
  match v with JStr s => s | _ => "?" end.

(** An engine whose model fails. *)
Definition engine_down : LLMAnalysisEngine.Engine :=
  LLMAnalysisEngine.mkEngine (λ details, Ret details)
    (λ prompt, Raise (mkExn "RuntimeError" "CUDA out of memory")).

(** A notifier without webhook, with SMTP settings and a server that
    accepts every message. *)
Definition notifier0 : Notifier.Config :=
  Notifier.mkConfig None (Some "soc") (Some "secret") (Some "soc@example.org")
    (Some (JStr "oncall@example.org")).

Definition transport0 : Notifier.Transport :=
  Notifier.mkTransport (λ _ _ _, Ret tt) (λ _ _, Ret tt).

Definition join0 (v : json) : Res string :=
  match v with
  | JArr l => Ret (String.concat (String PyStr.newline "") (str0 <$> l))
  | _ => Raise (TypeError "can only join an iterable")
  end.

Definition outbox0 : Notifier.State := Notifier.mkState clock0 [] [].

End Sample.

(** ** Vocabulary of the further properties *)

Module Shape.

(** The keys of the event [SplunkAgent.parse_log] builds. *)
Definition splunk_event_keys : list string :=
  ["timestamp"; "source"; "sourcetype"; "host"; "raw"; "severity";
   "event_type"; "source_ip"; "destination_ip"; "user"; "action"; "status";
   "message"].

End Shape.

Module Rank.

(** The order of the four levels, least severe first; any other word
    ranks with [low]. *)
Definition severity_rank (severity : string) : nat :=
  if String.eqb severity "critical" then 3
  else if String.eqb severity "high" then 2
  else if String.eqb severity "medium" then 1
  else 0.

End Rank.

(** ** Label taxonomies: [agents/azure/azure_agent.py], [agents/gcp/gcp_agent.py] *)

Module AzureAgent.

(** [_map_security_center_severity]: [severity_map.get(severity, 'low')]. *)
Definition _map_security_center_severity (severity : string) : string :=
  default "low"
    (list_to_map (M := gmap string string)
       [("Critical", "critical"); ("High", "high");
        ("Medium", "medium"); ("Low", "low")] !! severity).

(** [_map_monitor_severity]: [level_map.get(level, 'low')]. *)
Definition _map_monitor_severity (level : string) : string :=
  default "low"
    (list_to_map (M := gmap string string)
       [("Critical", "critical"); ("Error", "high");
        ("Warning", "medium"); ("Informational", "low")] !! level).

End AzureAgent.

Module GCPAgent.

Definition _map_security_center_severity (severity : string) : string :=
  default "low"
    (list_to_map (M := gmap string string)
       [("CRITICAL", "critical"); ("HIGH", "high");
        ("MEDIUM", "medium"); ("LOW", "low")] !! severity).

Definition _map_logging_severity (severity : string) : string :=
  default "low"
    (list_to_map (M := gmap string string)
       [("CRITICAL", "critical"); ("ERROR", "high");
        ("WARNING", "medium"); ("INFO", "low")] !! severity).

End GCPAgent.

(** ** The Wazuh connector's session: [agents/wazuh/wazuh_agent.py] *)

Module WazuhSession.

(** The body of the request to [/alerts]: the bounds of the [range]
    clause and [size]; the sort is always by ascending timestamp. *)
Record Query : Type := mkQuery { gte : Z; lte : Z; size : Z }.

(** The Wazuh API, as [fetch_logs] sees it:
    [session.post(".../alerts", json=query)], [raise_for_status] and
    [response.json()]. *)
Record Server : Type := mkServer {
  alerts : Query → Res json
}.

(** [self.session] is set, and the requests posted so far. *)
Record Session : Type := mkSession { has_session : bool; posted : list Query }.

Section Wazuh.
Variable srv : Server.
Variable batch_size : Z.     (* [config.get('batch_size', 1000)] *)

Definition Site : Type := BaseLogAgent.Site Session.

Definition now : M Site Z := BaseLogAgent.now.

Definition set_session (c : Session) : M Site unit :=
  modify (λ s : Site, BaseLogAgent.mkSite (BaseLogAgent.world s) c).

(** One hour, in the seconds the clock counts. *)
Definition one_hour : Z := 3600.

Definition fetch_logs (start_time end_time : option Z) : M Site json :=
  start_time ← match start_time with
               | None => t ← now; mret (t - one_hour)
               | Some t => mret t
               end;
  end_time ← match end_time with
             | None => now
             | Some t => mret t
             end;
  m_try
    (let query := mkQuery start_time end_time batch_size in
     c ← gets (λ s : Site, BaseLogAgent.session s);
     if negb (has_session c)
     then raise (AttributeError "'NoneType' object has no attribute 'post'")
     else
       set_session (mkSession (has_session c) (posted c ++ [query]));;
       data ← pure_res (alerts srv query);
       pure_res (hits ← Py.get data "hits" (JObj ∅);
                 Py.get hits "hits" (JArr [])))
    (λ e, mret (JArr [])).

End Wazuh.
End WazuhSession.

Module Observer.

(** A callback that keeps every payload it is given, and returns. *)
Definition keep {Body : Type} (message : json)
  : M (MessageBus.State (Body := Body) (list json)) unit :=
  modify (λ σ, MessageBus.mkState (MessageBus.world σ) (MessageBus.heap σ)
                 (MessageBus.channel σ) (MessageBus.handler σ ++ [message])).

End Observer.

(** ** Vocabulary for the response parser *)

Module Parse.

(** The four words [_parse_analysis_response] looks for in a line. *)
Definition mentions (word line : string) : bool :=
  PyStr.contains word (PyStr.lower line).

Definition keyword_free (line : string) : bool :=
  negb (mentions "severity" line) && negb (mentions "impact" line) &&
  negb (mentions "recommend" line) && negb (mentions "indicator" line).

(** A line of the response that sets the severity. *)
Definition sets_severity (line : string) : bool :=
  negb (String.eqb (PyStr.strip line) "") &&
  mentions "severity" (PyStr.strip line).

(** What such a line sets it to. *)
Definition captured (line : string) : string :=
  PyStr.strip (PyStr.after_last_colon (PyStr.strip line)).

End Parse.

(** ** Incident summaries: [analysis/llm/engine.py] *)

Module LLMIncident.

(** The result of a summary: the four keys of the returned [dict]. *)
Record Summary : Type := mkSummary {
  timeline : list string;
  root_cause : string;
  impact : string;
  remediation : list string
}.

Inductive Section_ : Type := STimeline | SRootCause | SImpact | SRemediation.

(** [len(v)]: lists, strings and dicts have a length. *)
Definition len (v : json) : Res Z :=
  match v with
  | JArr l => Ret (Z.of_nat (length l))
  | JStr s => Ret (Z.of_nat (String.length s))
  | JObj m => Ret (Z.of_nat (size m))
  | _ => Raise (TypeError "object has no len()")
  end.

Section Incident.
Variable str : json → string.                 (* [str(v)] in an f-string *)
Variable join_comma : json → Res string.      (* [', '.join(v)] *)
(* [config['prompts']['incident_summary'].format(incident_details=...)] *)
Variable incident_summary_prompt : string → Res string.
(* tokenize, [model.generate], [tokenizer.decode] *)
Variable generate : string → Res string.

Definition line (label value : string) : string :=
  String PyStr.newline ("        " +:+ label +:+ ": " +:+ value).

Definition _format_incident_details (incident : json) : Res string :=
  id ← Py.get incident "id" (JStr "unknown");
  start_time ← Py.get incident "start_time" (JStr "unknown");
  end_time ← Py.get incident "end_time" (JStr "unknown");
  status ← Py.get incident "status" (JStr "unknown");
  events ← Py.get incident "events" (JArr []);
  n ← len events;
  systems ← Py.get incident "affected_systems" (JArr []);
  affected ← join_comma systems;
  description ← Py.get incident "description" (JStr "unknown");
  mret (line "Incident ID" (str id) +:+ line "Start Time" (str start_time) +:+
        line "End Time" (str end_time) +:+ line "Status" (str status) +:+
        line "Events" (str (JNum (inject_Z n))) +:+
        line "Affected Systems" affected +:+
        line "Description" (str description) +:+
        String PyStr.newline "        ").

(** One turn of the loop of [_parse_summary_response]. *)
Definition parse_line (acc : Summary * option Section_) (line : string)
  : Summary * option Section_ :=
  let '(result, current_section) := acc in
  let line := PyStr.strip line in
  if String.eqb line "" then acc
  else if PyStr.contains "timeline" (PyStr.lower line) then (result, Some STimeline)
  else if PyStr.contains "root cause" (PyStr.lower line) then (result, Some SRootCause)
  else if PyStr.contains "impact" (PyStr.lower line) then (result, Some SImpact)
  else if PyStr.contains "remediation" (PyStr.lower line) then
    (result, Some SRemediation)
  else match current_section with
       | Some STimeline =>
           (mkSummary (timeline result ++ [line]) (root_cause result)
              (impact result) (remediation result), current_section)
       | Some SRootCause =>
           (mkSummary (timeline result) (root_cause result +:+ line +:+ " ")
              (impact result) (remediation result), current_section)
       | Some SImpact =>
           (mkSummary (timeline result) (root_cause result)
              (impact result +:+ line +:+ " ") (remediation result), current_section)
       | Some SRemediation =>
           (mkSummary (timeline result) (root_cause result)
              (impact result) (remediation result ++ [line]), current_section)
       | None => acc
       end.

Definition _parse_summary_response (response : string) : Summary :=
  fst (foldl parse_line (mkSummary [] "" "" [], None)
         (PyStr.split PyStr.newline response)).

(** The [dict] returned by the [except] branch. *)
Definition fallback : Summary :=
  mkSummary [] "Error during analysis" "Error during analysis"
    ["Investigate analysis error"].

(** The [try] block of [summarize_incident]. *)
Definition summary_attempt (incident : json) : Res Summary :=
  incident_details ← _format_incident_details incident;
  prompt ← incident_summary_prompt incident_details;
  response ← generate prompt;
  mret (_parse_summary_response response).

Definition summarize_incident (incident : json) : Res Summary :=
  try_except (summary_attempt incident) (λ e, Ret fallback).

End Incident.
End LLMIncident.

(** ** The analysis stage: [analysis/run_analysis.py] *)

Module AnalysisRunner.

(** [analysis['severity'] in ['critical', 'high']]. *)
Definition alerting (severity : string) : bool :=
  String.eqb severity "critical" || String.eqb severity "high".

(** The [dict] [analyze_security_event] returns, as a value. *)
Definition analysis_json (a : LLMAnalysisEngine.Analysis) : json :=
  JObj (list_to_map [
    ("severity", JStr (LLMAnalysisEngine.severity a));
    ("impact", JStr (LLMAnalysisEngine.impact a));
    ("recommendations", JArr (JStr <$> LLMAnalysisEngine.recommendations a));
    ("iocs", JArr (JStr <$> LLMAnalysisEngine.iocs a))]).

Section Runner.
Context {Body : Type}.
Variable json_dumps : json → Body.
Variable isoformat : Z → string.
Variable str : json → string.
Variable eng : LLMAnalysisEngine.Engine.
Variable join_lines : json → Res string.
Variable strftime : Z → string.
Variable cfg : Notifier.Config.
Variable net : Notifier.Transport.

(** The process: the bus it publishes to and consumes from, and, as the
    state of its callback, what its notifier did. *)
Definition State : Type := MessageBus.State (Body := Body) Notifier.State.

(** The notifier works on the clock of the process. *)
Definition on_notifier {A} (m : M Notifier.State A) : M State A :=
  zoom
    (λ σ : State,
       Notifier.mkState (MessageBus.world σ)
         (Notifier.attempted (MessageBus.handler σ))
         (Notifier.delivered (MessageBus.handler σ)))
    (λ n σ,
       MessageBus.mkState (Notifier.world n) (MessageBus.heap σ)
         (MessageBus.channel σ) n)
    m.

(** A dict display: a new object. *)
Definition new_dict (d : dict) : M State positive :=
  λ σ, let r := fresh (dom (MessageBus.heap σ)) in
       (Ret r, MessageBus.mkState (MessageBus.world σ)
                 (<[r := d]> (MessageBus.heap σ))
                 (MessageBus.channel σ) (MessageBus.handler σ)).

(** [event.get('id', 'unknown')] inside a log line: evaluated, then only
    written to the log. *)
Definition log_event_id (event : json) : M State unit :=
  pure_res (Py.get event "id" (JStr "unknown"));; mret tt.

Definition process_event (event : json) : M State unit :=
  m_try
    (analysis ← pure_res (LLMAnalysisEngine.analyze_security_event str eng event);
     log_event_id event;;
     (if alerting (LLMAnalysisEngine.severity analysis)
      then
        event_type ← pure_res (Py.get event "event_type" (JStr "Unknown"));
        source ← pure_res (Py.get event "source" (JStr "Unknown"));
        description ← pure_res (Py.get event "description" (JStr "No description"));
        let alert : dict := list_to_map [
          ("title", JStr ("Security Event: " +:+ str event_type));
          ("severity", JStr (LLMAnalysisEngine.severity analysis));
          ("source", source);
          ("description", description);
          ("impact", JStr (LLMAnalysisEngine.impact analysis));
          ("recommendations",
             JArr (JStr <$> LLMAnalysisEngine.recommendations analysis));
          ("additional_info",
             JObj (list_to_map [
               ("raw_data", event);
               ("iocs", JArr (JStr <$> LLMAnalysisEngine.iocs analysis))]))] in
        on_notifier (Notifier.send_alert str join_lines strftime cfg net alert None);;
        log_event_id event
      else mret tt);;
     event_id ← pure_res (Py.get event "id" JNull);
     message ← new_dict (list_to_map [
                  ("event_id", event_id);
                  ("analysis", analysis_json analysis)]);
     MessageBus.publish json_dumps isoformat "security_analysis" message;;
     log_event_id event)
    (λ e, mret tt).

End Runner.
End AnalysisRunner.

(** ** More sample instances *)

Module Fixture.
Import Sample.

(** A Splunk server that refuses the login. *)
Definition splunk_down : SplunkAgent.Server :=
  SplunkAgent.mkServer (Raise (ConnectionError "connection refused")) (Ret tt)
    (λ q, Raise (ConnectionError "connection refused")).

(** The site of a Splunk agent after a successful [connect]. *)
Definition splunk_connected : BaseLogAgent.Site SplunkAgent.Session :=
  BaseLogAgent.mkSite clock0 (SplunkAgent.mkSession true []).

Definition event1 : dict :=
  <["severity" := JStr "low"]> {["timestamp" := JStr "2024-02-02T00:00:00"]}.

(** A publisher holding two events, on an open and on a closed channel. *)
Definition bus_two : MessageBus.State (Body := json) (list json) :=
  MessageBus.mkState clock0 (<[2%positive := event1]> {[1%positive := event0]})
    (MessageBus.mkChannel true ∅) [].

Definition bus_closed : MessageBus.State (Body := json) (list json) :=
  MessageBus.mkState clock0 {[1%positive := event0]}
    (MessageBus.mkChannel false ∅) [].

(** A consumer with one message ready in [security_logs]. *)
Definition bus_ready : MessageBus.State (Body := json) (list json) :=
  MessageBus.mkState clock0 ∅
    (MessageBus.mkChannel true {["security_logs" := [JObj event0]]}) [].

(** A wire format nothing can be read from. *)
Definition loads_never (body : json) : Res json :=
  Raise (mkExn "JSONDecodeError" "Expecting value").

(** The analysis process with one unreadable event ([null]) ready. *)
Definition stage0 : MessageBus.State (Body := json) Notifier.State :=
  MessageBus.mkState clock0 ∅
    (MessageBus.mkChannel true {["security_logs" := [JNull]]}) outbox0.

End Fixture.

(** * Properties *)

(** ** Python values *)

Lemma ge_true a b : Py.ge a b = true ↔ (b <= a)%Q.
Proof. apply Qle_bool_iff. Qed.

Lemma ge_false a b : Py.ge a b = false ↔ (a < b)%Q.
Proof.
  unfold Py.ge. split; intros H.
  - apply Qnot_le_lt. intros Hle. apply Qle_bool_iff in Hle. congruence.
  - destruct (Qle_bool b a) eqn:E; [|done].
    apply Qle_bool_iff in E. exfalso. eapply Qlt_not_le; eauto.
Qed.

(** ** Severity taxonomy *)

Section SeverityFacts.
Import Severity.

Lemma guardduty_canonical v : _map_guardduty_severity v ∈ canonical_severities.
Proof.
  unfold _map_guardduty_severity, canonical_severities.
  repeat case_match; set_solver.
Qed.

Lemma securityhub_canonical n : _map_securityhub_severity n ∈ canonical_severities.
Proof.
  unfold _map_securityhub_severity, canonical_severities.
  repeat case_match; set_solver.
Qed.

Lemma wazuh_canonical v : _map_severity v ∈ canonical_severities.
Proof.
  unfold _map_severity, canonical_severities.
  repeat case_match; set_solver.
Qed.

Lemma guardduty_buckets (v : Q) :
  (_map_guardduty_severity v = "critical" ↔ (7 <= v)%Q) ∧
  (_map_guardduty_severity v = "high" ↔ (4 <= v)%Q ∧ (v < 7)%Q) ∧
  (_map_guardduty_severity v = "medium" ↔ (2 <= v)%Q ∧ (v < 4)%Q) ∧
  (_map_guardduty_severity v = "low" ↔ (v < 2)%Q).
Proof.
  unfold _map_guardduty_severity.
  destruct (Py.ge v 7) eqn:E7; [apply ge_true in E7 | apply ge_false in E7];
  (destruct (Py.ge v 4) eqn:E4; [apply ge_true in E4 | apply ge_false in E4]);
  (destruct (Py.ge v 2) eqn:E2; [apply ge_true in E2 | apply ge_false in E2]);
  destruct v as [n d]; unfold Qle, Qlt in *; simpl in *;
  repeat split; intros; try done; lia.
Qed.

Lemma securityhub_buckets (n : Z) :
  (_map_securityhub_severity n = "critical" ↔ 70 <= n) ∧
  (_map_securityhub_severity n = "high" ↔ 40 <= n < 70) ∧
  (_map_securityhub_severity n = "medium" ↔ 20 <= n < 40) ∧
  (_map_securityhub_severity n = "low" ↔ n < 20).
Proof.
  unfold _map_securityhub_severity.
  repeat case_match; repeat split; intros; try done; lia.
Qed.

(** C7: the numeric taxonomies are total, return one of the four levels,
    and cut at 7 / 4 / 2 on the 0-10 scale and at 70 / 40 / 20 on the
    0-100 scale, a value on a cut point taking the higher level; 8.5 is
    critical and 35 is medium. *)
Theorem severity_thresholds_inclusive :
  (∀ v : Q,
     _map_guardduty_severity v ∈ canonical_severities ∧
     (_map_guardduty_severity v = "critical" ↔ (7 <= v)%Q) ∧
     (_map_guardduty_severity v = "high" ↔ (4 <= v)%Q ∧ (v < 7)%Q) ∧
     (_map_guardduty_severity v = "medium" ↔ (2 <= v)%Q ∧ (v < 4)%Q) ∧
     (_map_guardduty_severity v = "low" ↔ (v < 2)%Q)) ∧
  (∀ n : Z,
     _map_securityhub_severity n ∈ canonical_severities ∧
     (_map_securityhub_severity n = "critical" ↔ 70 <= n) ∧
     (_map_securityhub_severity n = "high" ↔ 40 <= n < 70) ∧
     (_map_securityhub_severity n = "medium" ↔ 20 <= n < 40) ∧
     (_map_securityhub_severity n = "low" ↔ n < 20)) ∧
  _map_guardduty_severity (17 # 2) = "critical" ∧
  _map_securityhub_severity 35 = "medium" ∧
  _map_guardduty_severity 7 = "critical" ∧
  _map_guardduty_severity 4 = "high" ∧
  _map_guardduty_severity 2 = "medium" ∧
  _map_securityhub_severity 70 = "critical" ∧
  _map_securityhub_severity 40 = "high" ∧
  _map_securityhub_severity 20 = "medium".
Proof.
  split; [|split].
  - intros v. split; [apply guardduty_canonical | apply guardduty_buckets].
  - intros n. split; [apply securityhub_canonical | apply securityhub_buckets].
  - repeat split; reflexivity.
Qed.

End SeverityFacts.

(** ** The connector cycle *)

(** Unfolding the state-passing combinators. *)
Ltac m_unfold :=
  unfold mbind, m_bind, mret, m_ret, m_try, m_finally, zoom, raise, gets,
    modify, pure_res in *.

Section CycleFacts.
Import BaseLogAgent Cycle.
Context {C : Type} (K : Connector C).

Lemma successes_app {A} (l1 l2 : list (Res A)) :
  successes (l1 ++ l2) = successes l1 ++ successes l2.
Proof. unfold successes. apply omap_app. Qed.

Lemma successes_ret {A} (l : list A) : successes (Ret <$> l) = l.
Proof. unfold successes. induction l as [|a l IH]; [done|]. cbn. f_equal. exact IH. Qed.

Lemma successes_raise {A} e (l : list (Res A)) :
  successes (Raise e :: l) = successes l.
Proof. reflexivity. Qed.

(** The loop appends the successful translations to what it has, in
    the order of the input. *)
Lemma process_loop_spec logs : ∀ acc s,
  process_loop K acc logs s =
    (Ret (acc ++ successes (translations K logs s).1), (translations K logs s).2).
Proof.
  induction logs as [|log rest IH]; intros acc s; simpl.
  - m_unfold. by rewrite app_nil_r.
  - m_unfold. destruct (parse_log K log s) as [[p|e] s'] eqn:E.
    + rewrite IH. destruct (translations K rest s') as [rs s''].
      simpl. by rewrite <- app_assoc.
    + rewrite IH. destruct (translations K rest s') as [rs s'']. done.
Qed.

Lemma process_logs_spec logs s :
  process_logs K logs s =
    (Ret (successes (translations K logs s).1), (translations K logs s).2).
Proof. unfold process_logs. by rewrite process_loop_spec. Qed.

Lemma translations_length logs : ∀ s,
  length (translations K logs s).1 = length logs.
Proof.
  induction logs as [|log rest IH]; intros s; simpl; [done|].
  destruct (parse_log K log s) as [r s']. specialize (IH s').
  destruct (translations K rest s') as [rs s'']. simpl in *. lia.
Qed.

(** A cycle without connector-level failure, step by step. *)
Lemma run_success ag s1 logs s2 :
  connect K (site ag) = (Ret true, s1) →
  fetch_logs K None None s1 = (Ret logs, s2) →
  let s3 := (translations K logs s2).2 in
  let events := successes (translations K logs s2).1 in
  let t := next_reading (world s3) in
  let s4 := mkSite (mkWorld (wall_clock (world s3)) (S (readings (world s3))))
              (session s3) in
  run K ag =
    match disconnect K s4 with
    | (Ret _, s5) => (Ret events, mkAgent s5 (Some t))
    | (Raise e, s5) => (Raise e, mkAgent s5 (Some t))
    end.
Proof.
  intros Hc Hf. unfold run, run_body, on_site, now, datetime_now. m_unfold.
  rewrite Hc. simpl. rewrite Hf. rewrite process_logs_spec. simpl.
  destruct (disconnect K _) as [[[]|e] s5]; done.
Qed.

(** A cycle with a connector-level failure, step by step. *)
Lemma run_failure ag :
  ¬ succeeds K ag →
  ∃ s, run K ag =
    match disconnect K s with
    | (Ret _, s') => (Ret [], mkAgent s' (last_run ag))
    | (Raise e, s') => (Raise e, mkAgent s' (last_run ag))
    end.
Proof.
  intros Hno. unfold run, run_body, on_site. m_unfold.
  destruct (connect K (site ag)) as [[[|]|e] s1] eqn:Hc; simpl.
  - destruct (fetch_logs K None None s1) as [[logs|e] s2] eqn:Hf.
    + exfalso. apply Hno. by exists s1, logs, s2.
    + exists s2. simpl. destruct (disconnect K s2) as [[[]|e'] s3]; done.
  - exists s1. destruct (disconnect K s1) as [[[]|e'] s3]; done.
  - exists s1. destruct (disconnect K s1) as [[[]|e'] s3]; done.
Qed.

(** [run] never reads the watermark: two agents that differ in
    [last_run] only go through the same cycle, with the same calls on the
    same site and the same outcome. *)
Lemma run_ignores_watermark (s : Site C) (last1 last2 : option Z) :
  (run K (mkAgent s last1)).1 = (run K (mkAgent s last2)).1 ∧
  site (run K (mkAgent s last1)).2 = site (run K (mkAgent s last2)).2.
Proof.
  unfold run, run_body, on_site, now, on_world, datetime_now. m_unfold. simpl.
  destruct (connect K s) as [[[|]|e] s1]; simpl.
  - destruct (fetch_logs K None None s1) as [[logs|e] s2]; simpl.
    + destruct (process_logs K logs s2) as [[events|e] s3]; simpl;
        by destruct (disconnect K _) as [[[]|e'] s5].
    + by destruct (disconnect K s2) as [[[]|e'] s5].
  - by destruct (disconnect K s1) as [[[]|e'] s5].
  - by destruct (disconnect K s1) as [[[]|e'] s5].
Qed.


(** C6: when the translation of exactly one record of a batch raises and
    the others return, [process_logs] returns the other translations, one
    fewer than the records, in the order of the batch; a cycle that
    fetched this batch still advances the watermark and hands the same
    events to its caller. *)
Theorem process_logs_drops_only_failed_record logs s before e after :
  (translations K logs s).1 = (Ret <$> before) ++ Raise e :: (Ret <$> after) →
  (process_logs K logs s).1 = Ret (before ++ after) ∧
  S (length (before ++ after)) = length logs ∧
  (∀ ag s1,
     connect K (site ag) = (Ret true, s1) →
     fetch_logs K None None s1 = (Ret logs, s) →
     last_run (run K ag).2
       = Some (next_reading (world (translations K logs s).2)) ∧
     (disconnect_safe K → (run K ag).1 = Ret (before ++ after))).
Proof.
  intros Htr.
  assert (Hev : successes (translations K logs s).1 = before ++ after).
  { by rewrite Htr, successes_app, successes_raise, !successes_ret. }
  split; [|split].
  - rewrite process_logs_spec. simpl. by rewrite Hev.
  - rewrite <- (translations_length logs s), Htr.
    rewrite !length_app. simpl. rewrite !length_fmap. lia.
  - intros ag s1 Hc Hf. rewrite (run_success ag s1 logs s Hc Hf).
    split.
    + by destruct (disconnect K _) as [[[]|e'] s5].
    + intros Hsafe. destruct (Hsafe (mkSite
        (mkWorld (wall_clock (world (translations K logs s).2))
           (S (readings (world (translations K logs s).2))))
        (session (translations K logs s).2))) as [s' Hd].
      rewrite Hd. simpl. by rewrite Hev.
Qed.

End CycleFacts.

(** ** The Splunk and Wazuh connectors *)

Section SplunkFacts.
Import BaseLogAgent Cycle SplunkAgent.
Variable isoformat : Z → string.

Lemma splunk_parse_log_dict (d : dict) (s : Site Session) :
  ∃ ev s',
    parse_log isoformat (JObj d) s = (Ret (JObj ev), s') ∧
    ev !! "severity" = Some (Py.dget d "severity" (JStr "info")).
Proof.
  unfold parse_log, BaseLogAgent.now, datetime_now. m_unfold. simpl.
  eexists _, _. split; [reflexivity|].
  simpl. repeat (rewrite lookup_insert_ne by done). apply lookup_insert_eq.
Qed.

(** C1, on the Splunk connector: [parse_log] copies the record's own
    [severity] into the event, whatever it is, and writes ['info'] when
    the record has none; ['info'] is not one of the four levels. *)
Theorem splunk_parse_log_keeps_native_severity :
  (∀ (d : dict) (s : Site Session), ∃ ev s',
     parse_log isoformat (JObj d) s = (Ret (JObj ev), s') ∧
     ev !! "severity" = Some (Py.dget d "severity" (JStr "info"))) ∧
  (∀ v : json, Py.dget {["severity" := v]} "severity" (JStr "info") = v) ∧
  Py.dget ∅ "severity" (JStr "info") = JStr "info" ∧
  "info" ∉ canonical_severities.
Proof.
  split; [|split; [|split]].
  - apply splunk_parse_log_dict.
  - intros v. unfold Py.dget. by rewrite lookup_singleton_eq.
  - done.
  - unfold canonical_severities. intros H.
    repeat (apply elem_of_cons in H as [H|H]; [discriminate|]).
    by apply elem_of_nil in H.
Qed.

Section Window.
Variable srv : Server.
Variable index : string.
Variable search_interval : Z.

Let K := connector isoformat srv index search_interval.

Lemma splunk_parse_log_session log (s : Site Session) :
  session (parse_log isoformat log s).2 = session s.
Proof.
  unfold parse_log, BaseLogAgent.now, datetime_now. m_unfold.
  by destruct log.
Qed.

Lemma splunk_translations_session logs : ∀ s : Site Session,
  session (translations K logs s).2 = session s.
Proof.
  induction logs as [|log rest IH]; intros s; simpl; [done|].
  pose proof (splunk_parse_log_session log s) as Hp.
  destruct (parse_log isoformat log s) as [r s']. simpl in Hp.
  specialize (IH s'). destruct (translations K rest s') as [rs s''].
  simpl in *. congruence.
Qed.

Lemma splunk_disconnect_session (s : Site Session) :
  (disconnect srv s).2 = s.
Proof.
  unfold disconnect. m_unfold. destruct (service (session s)); [|done].
  by destruct (logout srv) as [[]|e].
Qed.

(** A cycle of the Splunk connector that connects submits one search,
    from the reading of the clock minus [search_interval] to the next
    reading of the clock. *)
Lemma splunk_cycle_query (ag : Agent Session) :
  new_service srv = Ret tt →
  let w := world (site ag) in
  submitted (session (site (run K ag).2)) =
    submitted (session (site ag)) ++
      [mkQuery index (wall_clock w (readings w) - search_interval)
         (wall_clock w (S (readings w)))].
Proof.
  intros Hnew w.
  destruct ag as [[w0 [sv sub]] lr]. simpl in w. subst w.
  set (q := mkQuery index (wall_clock w0 (readings w0) - search_interval)
              (wall_clock w0 (S (readings w0)))).
  set (s1 := mkSite w0 (mkSession true sub)).
  assert (Hc : BaseLogAgent.connect K (mkSite w0 (mkSession sv sub)) = (Ret true, s1)).
  { unfold K, connector, connect. simpl. m_unfold. by rewrite Hnew. }
  assert (Hf : ∃ logs, BaseLogAgent.fetch_logs K None None s1 =
            (Ret logs, mkSite (mkWorld (wall_clock w0) (S (S (readings w0))))
                         (mkSession true (sub ++ [q])))).
  { unfold K, connector, fetch_logs, BaseLogAgent.now, datetime_now, on_session.
    simpl. m_unfold. simpl. fold q.
    destruct (jobs_create srv q) as [job|e]; [|by eexists].
    destruct (is_done job); simpl; [|by eexists].
    destruct (resultCount job =? 0); by eexists. }
  destruct Hf as [logs Hf].
  rewrite (run_success K (mkAgent (mkSite w0 (mkSession sv sub)) lr) s1 logs _ Hc Hf).
  simpl.
  match goal with |- context [disconnect srv ?s] =>
    pose proof (splunk_disconnect_session s) as Hd;
    destruct (disconnect srv s) as [[[]|e] s5] end;
  simpl in Hd; subst s5; simpl; by rewrite splunk_translations_session.
Qed.


End Window.
End SplunkFacts.

Section WazuhFacts.
Import WazuhAgent.
Variable isoformat : Z → string.
Variable json_dumps : json → string.

(** The Wazuh connector does map: an event it builds carries one of the
    four levels; a record it cannot read becomes the empty event. *)
Lemma wazuh_parse_log_severity (log : json) (w : World) :
  ∃ w',
    parse_log isoformat json_dumps log w = (Ret (JObj ∅), w') ∨
    ∃ ev sev,
      parse_log isoformat json_dumps log w = (Ret (JObj ev), w') ∧
      ev !! "severity" = Some (JStr sev) ∧
      sev ∈ canonical_severities.
Proof.
  unfold parse_log, rule_get, _map_severity, datetime_now. m_unfold.
  unfold mbind, res_bind, mret, res_ret.
  repeat match goal with
         | |- context [match ?x with Ret _ => _ | Raise _ => _ end] =>
             lazymatch x with
             | context [match _ with Ret _ => _ | Raise _ => _ end] => fail
             | _ => destruct x eqn:?; simpl; [|eexists; left; reflexivity]
             end
         end.
  eexists. right. eexists _, _. split; [reflexivity|]. split.
  - repeat (rewrite lookup_insert_ne by done). apply lookup_insert_eq.
  - apply wazuh_canonical.
Qed.

Example wazuh_parse_log_unreadable_level (w : World) :
  (parse_log isoformat json_dumps
     (JObj {["_source" := JObj {["rule" := JObj {["level" := JStr "12"]}]}]}) w).1
  = Ret (JObj ∅).
Proof. vm_compute. reflexivity. Qed.

End WazuhFacts.

Section CycleExamples.
Import BaseLogAgent Cycle Sample.


Lemma process_logs_drops_only_failed_record_witness :
  (process_logs (probe true (Ret [])) [JStr "a"; JNull; JStr "b"]
     (mkSite clock0 tt)).1 = Ret [JStr "a"; JStr "b"].
Proof.
  apply (process_logs_drops_only_failed_record (probe true (Ret []))
           [JStr "a"; JNull; JStr "b"] (mkSite clock0 tt)
           [JStr "a"] (ValueError "empty record") [JStr "b"]).
  reflexivity.
Defined.



End CycleExamples.

(** ** The message bus *)

Section BusFacts.
Import MessageBus Cycle.
Context {Body : Type}.
Variable json_dumps : json → Body.
Variable json_loads : Body → Res json.
Variable isoformat : Z → string.
Context {H : Type}.

Local Abbreviation publish := (publish json_dumps isoformat).
Local Abbreviation deliver_next := (deliver_next json_loads).

Local Abbreviation stamped := (BusSpec.stamped isoformat).

Lemma publish_declared queue message m (σ : State H) :
  declared queue = true →
  heap σ !! message = Some m →
  publish queue message σ =
    let m' := <["timestamp" := JStr (isoformat (next_reading (world σ)))]> m in
    let σ1 := stamped message m σ in
    if is_open (channel σ)
    then (Ret tt, set_pending queue (pending queue σ1 ++ [json_dumps (JObj m')]) σ1)
    else (Raise (mkExn "ChannelWrongStateError" "Channel is closed."), σ1).
Proof.
  intros Hq Hm. unfold MessageBus.publish, now, datetime_now, setitem, deref,
    basic_publish. m_unfold. rewrite Hq. simpl. rewrite Hm. simpl.
  rewrite lookup_insert_eq. unfold BusSpec.stamped, next_reading.
  simpl. by destruct (is_open (channel σ)).
Qed.

Lemma pending_set_pending queue l (σ : State (Body := Body) H) :
  pending queue (set_pending queue l σ) = l.
Proof. unfold pending, set_pending. simpl. by rewrite lookup_insert_eq. Qed.

Lemma deliver_next_head queue callback body rest (σ : State H) :
  pending queue σ = body :: rest →
  deliver_next queue callback σ =
    match json_loads body with
    | Ret message =>
        match callback message (set_pending queue rest σ) with
        | (Ret _, σ2) => (Ret true, σ2)
        | (Raise _, σ2) =>
            (Ret true, set_pending queue (body :: pending queue σ2) σ2)
        end
    | Raise _ =>
        (Ret true, set_pending queue (body :: rest) (set_pending queue rest σ))
    end.
Proof.
  intros Hp. unfold MessageBus.deliver_next, _callback. m_unfold.
  rewrite Hp. destruct (json_loads body) as [message|e]; simpl.
  - by destruct (callback message _) as [[[]|e] σ2].
  - by rewrite pending_set_pending.
Qed.

(** C10: [publish] on a declared queue assigns the publish time to the
    key ['timestamp'] of the very object the caller passed, replacing a
    value that was there, and changes no other key of it (nor any other
    object). *)
Theorem publish_stamps_callers_dict queue message m (σ : State H) :
  declared queue = true →
  heap σ !! message = Some m →
  ∃ m',
    heap (publish queue message σ).2 !! message = Some m' ∧
    m' !! "timestamp" = Some (JStr (isoformat (next_reading (world σ)))) ∧
    (∀ key, key ≠ "timestamp" → m' !! key = m !! key) ∧
    (∀ other, other ≠ message →
       heap (publish queue message σ).2 !! other = heap σ !! other).
Proof.
  intros Hq Hm. rewrite (publish_declared queue message m σ Hq Hm). simpl.
  exists (<["timestamp" := JStr (isoformat (next_reading (world σ)))]> m).
  assert (Hh : ∀ r, heap (if is_open (channel σ)
      then (Ret tt, set_pending queue
              (pending queue (stamped message m σ) ++
                 [json_dumps (JObj (<["timestamp" :=
                    JStr (isoformat (next_reading (world σ)))]> m))])
              (stamped message m σ))
      else (Raise (mkExn "ChannelWrongStateError" "Channel is closed."),
            stamped message m σ)).2 !! r
      = heap (stamped message m σ) !! r).
  { intros r. by destruct (is_open (channel σ)). }
  split; [|split; [|split]].
  - rewrite Hh. unfold BusSpec.stamped. simpl. apply lookup_insert_eq.
  - apply lookup_insert_eq.
  - intros key Hk. by apply lookup_insert_ne.
  - intros other Ho. rewrite Hh. unfold BusSpec.stamped. simpl.
    by apply lookup_insert_ne.
Qed.

(** C3, as the code has it: a message published to a declared queue that
    was empty is the next one delivered from it, and the callback gets
    the original with the key ['timestamp'] set to the publish time:
    every other key is as in the original.  This is what the caller's
    own dict holds after [publish].  The delivery is then settled by the
    callback's outcome. *)
Theorem publish_then_consume_delivers_stamped
    queue message m (σ : State H) (callback : json → M (State H) unit) :
  let m' := <["timestamp" := JStr (isoformat (next_reading (world σ)))]> m in
  declared queue = true →
  is_open (channel σ) = true →
  heap σ !! message = Some m →
  pending queue σ = [] →
  json_loads (json_dumps (JObj m')) = Ret (JObj m') →
  ∃ σ1,
    publish queue message σ = (Ret tt, σ1) ∧
    heap σ1 !! message = Some m' ∧
    deliver_next queue callback σ1 =
      match callback (JObj m') (set_pending queue [] σ1) with
      | (Ret _, σ2) => (Ret true, σ2)
      | (Raise _, σ2) =>
          (Ret true,
           set_pending queue (json_dumps (JObj m') :: pending queue σ2) σ2)
      end ∧
    m' !! "timestamp" = Some (JStr (isoformat (next_reading (world σ)))) ∧
    (∀ key, key ≠ "timestamp" → m' !! key = m !! key).
Proof.
  intros m' Hq Hopen Hm Hempty Hrt.
  rewrite (publish_declared queue message m σ Hq Hm). simpl. rewrite Hopen.
  eexists. split; [reflexivity|]. split; [|split; [|split]].
  - simpl. apply lookup_insert_eq.
  - erewrite deliver_next_head.
    2:{ rewrite pending_set_pending. unfold pending, BusSpec.stamped. simpl.
        fold (pending queue σ). rewrite Hempty. reflexivity. }
    fold m'. rewrite Hrt. reflexivity.
  - apply lookup_insert_eq.
  - intros key Hk. by apply lookup_insert_ne.
Qed.

End BusFacts.

Section BusExamples.
Import MessageBus Cycle Sample.

Lemma publish_stamps_callers_dict_witness :
  ∃ m',
    heap (publish (λ v, v) isoformat0 "security_logs" 1%positive bus0).2
      !! 1%positive = Some m' ∧
    m' !! "timestamp" = Some (JStr "2024-06-01T12:00:00") ∧
    (∀ key, key ≠ "timestamp" → m' !! key = event0 !! key) ∧
    (∀ other, other ≠ 1%positive →
       heap (publish (λ v, v) isoformat0 "security_logs" 1%positive bus0).2
         !! other = heap bus0 !! other).
Proof.
  apply (publish_stamps_callers_dict (λ v, v) isoformat0
           "security_logs" 1%positive event0 bus0).
  - reflexivity.
  - apply lookup_singleton_eq.
Defined.

Lemma publish_then_consume_delivers_stamped_witness :
  ∃ σ1,
    publish (λ v, v) isoformat0 "security_logs" 1%positive bus0 = (Ret tt, σ1) ∧
    heap σ1 !! 1%positive
      = Some (<["timestamp" := JStr "2024-06-01T12:00:00"]> event0) ∧
    deliver_next Ret "security_logs" recorder σ1 =
      match recorder (JObj (<["timestamp" := JStr "2024-06-01T12:00:00"]> event0))
              (set_pending "security_logs" [] σ1) with
      | (Ret _, σ2) => (Ret true, σ2)
      | (Raise _, σ2) =>
          (Ret true,
           set_pending "security_logs"
             (JObj (<["timestamp" := JStr "2024-06-01T12:00:00"]> event0)
                :: pending "security_logs" σ2) σ2)
      end ∧
    <["timestamp" := JStr "2024-06-01T12:00:00"]> event0 !! "timestamp"
      = Some (JStr "2024-06-01T12:00:00") ∧
    (∀ key, key ≠ "timestamp" →
       <["timestamp" := JStr "2024-06-01T12:00:00"]> event0 !! key = event0 !! key).
Proof.
  apply (publish_then_consume_delivers_stamped (λ v, v) Ret isoformat0
           "security_logs" 1%positive event0 bus0 recorder).
  - reflexivity.
  - reflexivity.
  - apply lookup_singleton_eq.
  - reflexivity.
  - reflexivity.
Defined.

(** C3, as stated, fails: an event first seen on 2024-01-01 and published
    on 2024-06-01 reaches the callback with the publish time as its
    ['timestamp'], so the payload delivered is not the original. *)
Lemma publish_then_consume_replaces_timestamp :
  ∃ m',
    handler (deliver_next Ret "security_logs" recorder
               (publish (λ v, v) isoformat0 "security_logs" 1%positive bus0).2).2
      = [JObj m'] ∧
    event0 !! "timestamp" = Some (JStr "2024-01-01T00:00:00") ∧
    m' !! "timestamp" = Some (JStr "2024-06-01T12:00:00") ∧
    JObj m' ≠ JObj event0.
Proof.
  exists (<["timestamp" := JStr "2024-06-01T12:00:00"]> event0).
  assert (Hev : event0 !! "timestamp" = Some (JStr "2024-01-01T00:00:00")).
  { unfold event0. rewrite lookup_insert_ne by done. apply lookup_singleton_eq. }
  split; [|split; [exact Hev|split]].
  - rewrite (publish_declared (λ v, v) isoformat0 "security_logs" 1%positive
               event0 bus0 eq_refl (lookup_singleton_eq _ _)).
    simpl. erewrite (deliver_next_head Ret); [|apply pending_set_pending].
    reflexivity.
  - apply lookup_insert_eq.
  - intros Heq.
    apply (f_equal (λ v, match v with
                         | JObj m => m !! "timestamp"
                         | _ => None
                         end)) in Heq.
    cbv beta iota in Heq.
    rewrite lookup_insert_eq, Hev in Heq. discriminate Heq.
Qed.

End BusExamples.

(** ** The collection scheduler *)

Section RunnerFacts.
Import AgentRunner Sample.

(** Nothing [run_agent] does reaches the broker. *)
Lemma run_agent_keeps_broker {C Body} agent_name (d : Deployment C Body) :
  broker (run_agent agent_name d).2 = broker d.
Proof.
  unfold run_agent, agent_run, log. m_unfold.
  destruct (agents d !! agent_name) as [a|]; simpl; [|done].
  destruct (BaseLogAgent.run _ _) as [[[|ev logs]|e] ag]; done.
Qed.

(** C2, at a cycle that collects one event: the runner logs the count
    and returns; the [security_logs] queue is as empty as before. *)
Theorem run_agent_collects_without_publishing :
  logger (run_agent "splunk" deployment0).2
    = [Running "splunk"; Collected 1 "splunk"] ∧
  broker (run_agent "splunk" deployment0).2 = broker deployment0 ∧
  MessageBus.ready (broker (run_agent "splunk" deployment0).2) !! "security_logs"
    = None.
Proof.
  split; [|split].
  - vm_compute. reflexivity.
  - apply run_agent_keeps_broker.
  - rewrite run_agent_keeps_broker. reflexivity.
Qed.

End RunnerFacts.

(** ** The analysis engine *)

Section EngineFacts.
Import LLMAnalysisEngine Sample.

Example parse_sections :
  _parse_analysis_response
    ("Severity: High" +:+ String PyStr.newline
     ("Impact:" +:+ String PyStr.newline
      ("  data loss" +:+ String PyStr.newline
       ("Recommendations:" +:+ String PyStr.newline
        ("rotate keys" +:+ String PyStr.newline
         ("Indicators:" +:+ String PyStr.newline "10.0.0.7"))))))
  = mkAnalysis "High" "data loss " ["rotate keys"] ["10.0.0.7"].
Proof. vm_compute. reflexivity. Qed.

Example parse_empty : _parse_analysis_response "" = mkAnalysis "unknown" "" [] [].
Proof. reflexivity. Qed.

Variable str : json → string.
Variable eng : Engine.

(** C8: whenever a step of the [try] block raises - formatting the
    event, rendering the prompt, or the call of the model with the
    decoding of its answer - [analyze_security_event] returns the
    fallback result; and for every event it returns a result, never an
    exception. *)
Theorem analyze_security_event_falls_back (event : json) :
  (∀ e, analysis_attempt str eng event = Raise e →
        analyze_security_event str eng event = Ret fallback) ∧
  (∀ e, _format_event_details str event = Raise e →
        analyze_security_event str eng event = Ret fallback) ∧
  (∀ details e,
     _format_event_details str event = Ret details →
     security_analysis_prompt eng details = Raise e →
     analyze_security_event str eng event = Ret fallback) ∧
  (∀ details prompt e,
     _format_event_details str event = Ret details →
     security_analysis_prompt eng details = Ret prompt →
     generate eng prompt = Raise e →
     analyze_security_event str eng event = Ret fallback) ∧
  returns (analyze_security_event str eng event) ∧
  fallback = mkAnalysis "unknown" "Error during analysis"
               ["Investigate analysis error"] [].
Proof.
  assert (Hraise : ∀ e, analysis_attempt str eng event = Raise e →
            analyze_security_event str eng event = Ret fallback).
  { intros e He. unfold analyze_security_event. by rewrite He. }
  repeat split.
  - exact Hraise.
  - intros e He. apply (Hraise e). unfold analysis_attempt. by rewrite He.
  - intros details e Hd He. apply (Hraise e). unfold analysis_attempt.
    rewrite Hd. simpl. by rewrite He.
  - intros details prompt e Hd Hp He. apply (Hraise e). unfold analysis_attempt.
    rewrite Hd. simpl. rewrite Hp. simpl. by rewrite He.
  - unfold returns, analyze_security_event.
    destruct (analysis_attempt str eng event) as [a|e]; simpl; eauto.
Qed.

End EngineFacts.

Lemma analyze_security_event_falls_back_witness :
  LLMAnalysisEngine.analyze_security_event Sample.str0 Sample.engine_down
    (JObj Sample.event0) = Ret LLMAnalysisEngine.fallback.
Proof.
  apply (proj1 (analyze_security_event_falls_back Sample.str0 Sample.engine_down
                  (JObj Sample.event0))
           (mkExn "RuntimeError" "CUDA out of memory")).
  vm_compute. reflexivity.
Defined.

(** ** Alert fan-out *)

Section NotifierFacts.
Import Notifier.
Variable str : json → string.
Variable join_lines : json → Res string.
Variable strftime : Z → string.
Variable cfg : Config.
Variable net : Transport.

Local Abbreviation deliver := (deliver str join_lines strftime cfg net).
Local Abbreviation send_one := (send_one str join_lines strftime cfg net).
Local Abbreviation send_each := (send_each str join_lines strftime cfg net).
Local Abbreviation send_alert := (send_alert str join_lines strftime cfg net).

Ltac notifier_unfold :=
  unfold _send_slack_alert, _send_email_alert, note_attempt, note_delivered,
    now, datetime_now; m_unfold.

Lemma slack_attempted alert σ :
  attempted (_send_slack_alert str join_lines strftime cfg net alert σ).2
    = attempted σ ++ ["slack"].
Proof.
  notifier_unfold. simpl.
  destruct (truthy (slack_webhook_url cfg)); simpl; [|done].
  destruct (lower _) as [sev|e]; simpl; [|done].
  destruct (join_lines _) as [recs|e]; simpl; [|done].
  destruct (requests_post net _ _ _) as [[]|e]; done.
Qed.

Lemma email_attempted alert σ :
  attempted (_send_email_alert str join_lines strftime cfg net alert σ).2
    = attempted σ ++ ["email"].
Proof.
  notifier_unfold. simpl.
  destruct (truthy (smtp_username cfg) && truthy (smtp_password cfg)); simpl; [|done].
  destruct (default_recipients cfg) as [rcpt|]; simpl; [|done].
  destruct (join_lines _) as [recs|e]; simpl; [|done].
  destruct (smtp_send net _ _) as [[]|e]; done.
Qed.

(** A sender that returns has handed its message to the transport, which
    accepted it. *)
Lemma slack_returns_delivered alert σ σ' :
  _send_slack_alert str join_lines strftime cfg net alert σ = (Ret tt, σ') →
  ∃ m, delivered σ' = delivered σ ++ [ToSlack m].
Proof.
  notifier_unfold. simpl.
  destruct (truthy (slack_webhook_url cfg)); simpl; [|done].
  destruct (lower _) as [sev|e]; simpl; [|done].
  destruct (join_lines _) as [recs|e]; simpl; [|done].
  destruct (requests_post net _ _ _) as [[]|e]; simpl; [|done].
  intros [= <-]. simpl. by eexists.
Qed.

Lemma email_returns_delivered alert σ σ' :
  _send_email_alert str join_lines strftime cfg net alert σ = (Ret tt, σ') →
  ∃ m, delivered σ' = delivered σ ++ [ToEmail m].
Proof.
  notifier_unfold. simpl.
  destruct (truthy (smtp_username cfg) && truthy (smtp_password cfg)); simpl; [|done].
  destruct (default_recipients cfg) as [rcpt|]; simpl; [|done].
  destruct (join_lines _) as [recs|e]; simpl; [|done].
  destruct (smtp_send net _ _) as [[]|e]; simpl; [|done].
  intros [= <-]. simpl. by eexists.
Qed.

Lemma deliver_attempted alert channel σ :
  attempted (deliver alert channel σ).2
    = attempted σ ++ (if FanOut.supported channel then [channel] else []).
Proof.
  unfold Notifier.deliver, FanOut.supported.
  destruct (String.eqb channel "slack") eqn:Es.
  - apply String.eqb_eq in Es. subst. apply slack_attempted.
  - destruct (String.eqb channel "email") eqn:Ee; simpl.
    + apply String.eqb_eq in Ee. subst. apply email_attempted.
    + by rewrite app_nil_r.
Qed.

(** A turn of the loop returns, and leaves what the sender left. *)
Lemma send_one_spec alert channel σ :
  send_one alert channel σ = (Ret tt, (deliver alert channel σ).2).
Proof.
  unfold Notifier.send_one. m_unfold.
  by destruct (deliver alert channel σ) as [[[]|e] σ'].
Qed.

Lemma send_each_spec alert channels : ∀ σ,
  send_each alert channels σ
    = (Ret tt, foldl (λ σ channel, (deliver alert channel σ).2) σ channels).
Proof.
  induction channels as [|channel rest IH]; intros σ; simpl; [done|].
  unfold mbind, m_bind. rewrite send_one_spec. apply IH.
Qed.

Lemma foldl_attempted alert channels : ∀ σ,
  attempted (foldl (λ σ channel, (deliver alert channel σ).2) σ channels)
    = attempted σ ++ List.filter FanOut.supported channels.
Proof.
  induction channels as [|channel rest IH]; intros σ; simpl.
  - by rewrite app_nil_r.
  - rewrite IH, deliver_attempted.
    destruct (FanOut.supported channel); simpl.
    + by rewrite <- app_assoc.
    + by rewrite app_nil_r.
Qed.


End NotifierFacts.


(** ** Checks of the string methods against Python *)

Section PyStrExamples.
Import PyStr.

Example split_lines :
  split newline ("a" +:+ String newline ("b" +:+ String newline "")) = ["a"; "b"; ""].
Proof. reflexivity. Qed.

Example split_empty : split newline "" = [""].
Proof. reflexivity. Qed.

Example strip_both : strip "  Severity: High  " = "Severity: High".
Proof. reflexivity. Qed.

Example strip_blank : strip "   " = "".
Proof. reflexivity. Qed.

Example lower_mixed : lower "Severity: HIGH" = "severity: high".
Proof. reflexivity. Qed.

Example contains_inside : contains "recommend" "our recommendations" = true.
Proof. reflexivity. Qed.

Example contains_absent : contains "impact" "severity" = false.
Proof. reflexivity. Qed.

Example last_segment : after_last_colon "Severity: CVSS: High" = " High".
Proof. reflexivity. Qed.

Example last_segment_no_colon : after_last_colon "severity high" = "severity high".
Proof. reflexivity. Qed.

End PyStrExamples.

Section SplunkExamples.
Import BaseLogAgent Sample.

(** A whole cycle of the sample Splunk agent: the one event it returns
    carries the server's own severity word. *)
Example splunk_cycle_event_severity :
  ∃ ev,
    (run splunk_connector (splunk_agent None)).1 = Ret [JObj ev] ∧
    ev !! "severity" = Some (JStr "informational").
Proof.
  eexists. split.
  - vm_compute. reflexivity.
  - vm_compute. reflexivity.
Qed.

End SplunkExamples.

(** * Further properties of the code *)

(** ** [BaseLogAgent.process_logs] and [BaseLogAgent.run] *)

Section MoreCycleFacts.
Import BaseLogAgent Cycle.
Context {C : Type} (K : Connector C).

Lemma successes_length {A} (rs : list (Res A)) :
  (length (successes rs) <= length rs)%nat.
Proof.
  induction rs as [|[a|e] rs IH]; [simpl; lia| |].
  - change (successes (Ret a :: rs)) with (a :: successes rs). simpl. lia.
  - rewrite successes_raise. simpl. lia.
Qed.

Lemma successes_full {A} (rs : list (Res A)) :
  length (successes rs) = length rs ↔ Forall (λ r, ∃ a, r = Ret a) rs.
Proof.
  induction rs as [|[a|e] rs IH].
  - split; [constructor|done].
  - change (successes (Ret a :: rs)) with (a :: successes rs). simpl. split.
    + intros Hl. constructor; [by eexists|]. apply IH. lia.
    + intros Hall. inversion Hall; subst. f_equal. by apply IH.
  - rewrite successes_raise. simpl. split.
    + intros Hl. pose proof (successes_length rs). lia.
    + intros Hall. inversion Hall as [|? ? [a Ha] ?]; subst. discriminate Ha.
Qed.

(** X1: [process_logs] never raises; whatever the number of records whose
    translation raises, it returns the translations that returned, in the
    order of the batch: never more events than records, and as many
    exactly when no translation raised. *)
Theorem process_logs_returns_successes (logs : list json) (s : Site C) :
  ∃ events s',
    process_logs K logs s = (Ret events, s') ∧
    events = successes (translations K logs s).1 ∧
    (length events <= length logs)%nat ∧
    (length events = length logs ↔
       Forall (λ r, ∃ a, r = Ret a) (translations K logs s).1).
Proof.
  eexists _, _. split; [apply process_logs_spec|]. split; [done|].
  rewrite <- (translations_length K logs s). split.
  - apply successes_length.
  - apply successes_full.
Qed.

(** X2: an exception of [connect] or [fetch_logs] never leaves [run]: what
    [run] raises was raised by [disconnect] in the [finally] block; with a
    [disconnect] that returns, [run] returns. *)
Theorem run_raises_only_from_disconnect (ag : Agent C) :
  (∀ e, (run K ag).1 = Raise e →
        ∃ s s', disconnect K s = (Raise e, s')) ∧
  (disconnect_safe K → ∃ events, (run K ag).1 = Ret events).
Proof.
  unfold run, run_body, on_site, now, on_world, datetime_now. m_unfold. simpl.
  split.
  - intros e.
    destruct (connect K (site ag)) as [[[|]|e0] s1]; simpl.
    + destruct (fetch_logs K None None s1) as [[logs|e1] s2]; simpl.
      * destruct (process_logs K logs s2) as [[events|e2] s3] eqn:Hp; simpl.
        -- destruct (disconnect K _) as [[[]|e'] s5] eqn:Hd; simpl; [done|].
           intros [= <-]. eauto.
        -- rewrite process_logs_spec in Hp. discriminate Hp.
      * destruct (disconnect K s2) as [[[]|e'] s5] eqn:Hd; simpl; [done|].
        intros [= <-]. eauto.
    + destruct (disconnect K s1) as [[[]|e'] s5] eqn:Hd; simpl; [done|].
      intros [= <-]. eauto.
    + destruct (disconnect K s1) as [[[]|e'] s5] eqn:Hd; simpl; [done|].
      intros [= <-]. eauto.
  - intros Hsafe.
    destruct (connect K (site ag)) as [[[|]|e0] s1]; simpl.
    + destruct (fetch_logs K None None s1) as [[logs|e1] s2]; simpl.
      * destruct (process_logs K logs s2) as [[events|e2] s3] eqn:Hp; simpl.
        -- match goal with |- context [disconnect K ?s] =>
             destruct (Hsafe s) as [s' ->] end. simpl. eauto.
        -- rewrite process_logs_spec in Hp. discriminate Hp.
      * destruct (Hsafe s2) as [s' ->]. simpl. eauto.
    + destruct (Hsafe s1) as [s' ->]. simpl. eauto.
    + destruct (Hsafe s1) as [s' ->]. simpl. eauto.
Qed.

End MoreCycleFacts.

Lemma run_raises_only_from_disconnect_witness :
  ∃ events,
    (BaseLogAgent.run (Sample.probe true (Ret [JStr "a"]))
       (Sample.probe_agent None)).1 = Ret events.
Proof.
  apply (proj2 (run_raises_only_from_disconnect (Sample.probe true (Ret [JStr "a"]))
                  (Sample.probe_agent None))).
  intros s. by exists s.
Defined.

(** ** The Splunk connector, method by method *)

Section MoreSplunkFacts.
Import BaseLogAgent Cycle SplunkAgent.
Variable isoformat : Z → string.
Variable srv : Server.
Variable index : string.
Variable search_interval : Z.

Local Abbreviation fetch := (fetch_logs srv index search_interval).
Local Abbreviation K := (connector isoformat srv index search_interval).

Ltac splunk_unfold :=
  unfold fetch_logs, connect, disconnect, parse_log, BaseLogAgent.now,
    on_world, on_session, datetime_now; m_unfold; simpl.



(** X5: [parse_log] never raises.  From a [dict] it builds an event with
    exactly the thirteen keys, whatever the record holds; its timestamp is
    the record's [_time], or the time of parsing when there is none.
    Anything that is not a [dict] becomes the empty event, with no key at
    all. *)
Theorem splunk_parse_log_shape (log : json) (s : Site Session) :
  ∃ ev s',
    parse_log isoformat log s = (Ret (JObj ev), s') ∧
    match log with
    | JObj d =>
        dom ev = list_to_set Shape.splunk_event_keys ∧
        ev !! "timestamp" =
          Some (Py.dget d "_time" (JStr (isoformat (next_reading (world s)))))
    | _ => ev = ∅
    end.
Proof.
  splunk_unfold. destruct log; by eexists _, _.
Qed.

(** X6: a cycle whose [connect] fails on an agent that never connected:
    no search is submitted, the clock is not read, [run] returns the empty
    list and the watermark stays; [disconnect] has nothing to log out
    from and is not affected by a failing [logout]. *)
Theorem splunk_failed_connect_cycle (ag : Agent Session) (e : Exn) :
  new_service srv = Raise e →
  service (session (site ag)) = false →
  run K ag = (Ret [], ag).
Proof.
  intros Hnew Hsv. destruct ag as [[w [sv sub]] lr]. simpl in Hsv. subst sv.
  unfold run, run_body, on_site. simpl. splunk_unfold. by rewrite Hnew.
Qed.

Lemma splunk_translations_all_return (results : list dict) : ∀ s : Site Session,
  Forall (λ r, ∃ a, r = Ret a) (translations K (JObj <$> results) s).1.
Proof.
  induction results as [|d rest IH]; intros s; [constructor|].
  destruct (splunk_parse_log_dict isoformat d s) as (ev & s' & Hp & _).
  rewrite fmap_cons. cbn [translations].
  change (BaseLogAgent.parse_log K (JObj d) s)
    with (parse_log isoformat (JObj d) s).
  rewrite Hp. specialize (IH s').
  destruct (translations K (JObj <$> rest) s') as [rs s'']. simpl in *.
  constructor; [by eexists|done].
Qed.

(** X7: the Splunk translation never drops a record: a batch of result
    [dict]s gives exactly as many events as results. *)
Theorem splunk_process_logs_keeps_every_result
    (results : list dict) (s : Site Session) :
  ∃ events s',
    process_logs K (JObj <$> results) s = (Ret events, s') ∧
    length events = length results.
Proof.
  eexists _, _. split; [apply process_logs_spec|].
  rewrite <- (length_fmap JObj results).
  rewrite <- (translations_length K (JObj <$> results) s).
  apply successes_full, splunk_translations_all_return.
Qed.

End MoreSplunkFacts.

(** ** Severity taxonomies of the other connectors *)

Section MoreSeverityFacts.
Import Severity Rank.

Lemma wazuh_buckets (v : Q) :
  (_map_severity v = "critical" ↔ (15 <= v)%Q) ∧
  (_map_severity v = "high" ↔ (10 <= v)%Q ∧ (v < 15)%Q) ∧
  (_map_severity v = "medium" ↔ (5 <= v)%Q ∧ (v < 10)%Q) ∧
  (_map_severity v = "low" ↔ (v < 5)%Q).
Proof.
  unfold _map_severity.
  destruct (Py.ge v 15) eqn:E1; [apply ge_true in E1 | apply ge_false in E1];
  (destruct (Py.ge v 10) eqn:E2; [apply ge_true in E2 | apply ge_false in E2]);
  (destruct (Py.ge v 5) eqn:E3; [apply ge_true in E3 | apply ge_false in E3]);
  destruct v as [n d]; unfold Qle, Qlt in *; simpl in *;
  repeat split; intros; try done; lia.
Qed.

(** X8: the Wazuh taxonomy on what a record can hold as rule level: a
    number is critical from 15, high from 10, medium from 5 and low below;
    [true] and [false] count as 1 and 0, so are low; [null], a string, a
    list or a dict cannot be compared and raise [TypeError]. *)
Theorem wazuh_map_severity_by_level (level : json) :
  match level with
  | JNum q =>
      ∃ sev, WazuhAgent._map_severity level = Ret sev ∧
        (sev = "critical" ↔ (15 <= q)%Q) ∧
        (sev = "high" ↔ (10 <= q)%Q ∧ (q < 15)%Q) ∧
        (sev = "medium" ↔ (5 <= q)%Q ∧ (q < 10)%Q) ∧
        (sev = "low" ↔ (q < 5)%Q)
  | JBool _ => WazuhAgent._map_severity level = Ret "low"
  | _ => ∃ msg, WazuhAgent._map_severity level = Raise (TypeError msg)
  end.
Proof.
  destruct level as [|[|]|q|s|l|m]; try (by eexists); try reflexivity.
  eexists. split; [reflexivity|]. apply wazuh_buckets.
Qed.

Lemma rank_guardduty (v : Q) :
  severity_rank (_map_guardduty_severity v) =
    if Py.ge v 7 then 3%nat else if Py.ge v 4 then 2%nat
    else if Py.ge v 2 then 1%nat else 0%nat.
Proof. unfold _map_guardduty_severity. by repeat case_match. Qed.

Lemma rank_wazuh (v : Q) :
  severity_rank (_map_severity v) =
    if Py.ge v 15 then 3%nat else if Py.ge v 10 then 2%nat
    else if Py.ge v 5 then 1%nat else 0%nat.
Proof. unfold _map_severity. by repeat case_match. Qed.

Lemma rank_securityhub (n : Z) :
  severity_rank (_map_securityhub_severity n) =
    if n >=? 70 then 3%nat else if n >=? 40 then 2%nat
    else if n >=? 20 then 1%nat else 0%nat.
Proof. unfold _map_securityhub_severity. by repeat case_match. Qed.

Ltac q_cases :=
  repeat match goal with
         | |- context [Py.ge ?a ?b] =>
             let E := fresh "E" in
             destruct (Py.ge a b) eqn:E;
             [apply ge_true in E | apply ge_false in E]
         end.

(** X9: the three numeric taxonomies keep the order of the native scale:
    a finding with a larger native severity never gets a lower level. *)
Theorem numeric_taxonomies_monotone :
  (∀ v v' : Q, (v <= v')%Q →
     (severity_rank (_map_guardduty_severity v)
        <= severity_rank (_map_guardduty_severity v'))%nat) ∧
  (∀ n n' : Z, n <= n' →
     (severity_rank (_map_securityhub_severity n)
        <= severity_rank (_map_securityhub_severity n'))%nat) ∧
  (∀ v v' : Q, (v <= v')%Q →
     (severity_rank (_map_severity v) <= severity_rank (_map_severity v'))%nat).
Proof.
  split; [|split].
  - intros v v' Hle. rewrite !rank_guardduty. q_cases;
      destruct v as [n d], v' as [n' d']; unfold Qle, Qlt in *; simpl in *; nia.
  - intros n n' Hle. rewrite !rank_securityhub. repeat case_match; lia.
  - intros v v' Hle. rewrite !rank_wazuh. q_cases;
      destruct v as [n d], v' as [n' d']; unfold Qle, Qlt in *; simpl in *; nia.
Qed.

End MoreSeverityFacts.

Section LabelFacts.

Ltac table_cases :=
  cbn [list_to_map foldr fst snd];
  repeat (rewrite lookup_insert; case_decide; subst; cbn [default from_option id]);
  try rewrite lookup_empty; cbn [default from_option id].

Lemma azure_security_center_table (s : string) :
  AzureAgent._map_security_center_severity s ∈ canonical_severities ∧
  (AzureAgent._map_security_center_severity s = "critical" ↔ s = "Critical") ∧
  (AzureAgent._map_security_center_severity s = "high" ↔ s = "High") ∧
  (AzureAgent._map_security_center_severity s = "medium" ↔ s = "Medium") ∧
  (AzureAgent._map_security_center_severity s = "low" ↔
     s ≠ "Critical" ∧ s ≠ "High" ∧ s ≠ "Medium").
Proof.
  unfold AzureAgent._map_security_center_severity, canonical_severities.
  table_cases; (split; [set_solver|]); repeat split; intros; try done;
    try (destruct_and?; congruence).
Qed.

Lemma azure_monitor_table (s : string) :
  AzureAgent._map_monitor_severity s ∈ canonical_severities ∧
  (AzureAgent._map_monitor_severity s = "critical" ↔ s = "Critical") ∧
  (AzureAgent._map_monitor_severity s = "high" ↔ s = "Error") ∧
  (AzureAgent._map_monitor_severity s = "medium" ↔ s = "Warning") ∧
  (AzureAgent._map_monitor_severity s = "low" ↔
     s ≠ "Critical" ∧ s ≠ "Error" ∧ s ≠ "Warning").
Proof.
  unfold AzureAgent._map_monitor_severity, canonical_severities.
  table_cases; (split; [set_solver|]); repeat split; intros; try done;
    try (destruct_and?; congruence).
Qed.

Lemma gcp_security_center_table (s : string) :
  GCPAgent._map_security_center_severity s ∈ canonical_severities ∧
  (GCPAgent._map_security_center_severity s = "critical" ↔ s = "CRITICAL") ∧
  (GCPAgent._map_security_center_severity s = "high" ↔ s = "HIGH") ∧
  (GCPAgent._map_security_center_severity s = "medium" ↔ s = "MEDIUM") ∧
  (GCPAgent._map_security_center_severity s = "low" ↔
     s ≠ "CRITICAL" ∧ s ≠ "HIGH" ∧ s ≠ "MEDIUM").
Proof.
  unfold GCPAgent._map_security_center_severity, canonical_severities.
  table_cases; (split; [set_solver|]); repeat split; intros; try done;
    try (destruct_and?; congruence).
Qed.

Lemma gcp_logging_table (s : string) :
  GCPAgent._map_logging_severity s ∈ canonical_severities ∧
  (GCPAgent._map_logging_severity s = "critical" ↔ s = "CRITICAL") ∧
  (GCPAgent._map_logging_severity s = "high" ↔ s = "ERROR") ∧
  (GCPAgent._map_logging_severity s = "medium" ↔ s = "WARNING") ∧
  (GCPAgent._map_logging_severity s = "low" ↔
     s ≠ "CRITICAL" ∧ s ≠ "ERROR" ∧ s ≠ "WARNING").
Proof.
  unfold GCPAgent._map_logging_severity, canonical_severities.
  table_cases; (split; [set_solver|]); repeat split; intros; try done;
    try (destruct_and?; congruence).
Qed.

(** X10: the label taxonomies of the Azure and GCP connectors always
    return one of the four levels; a level other than [low] comes from
    exactly one label, spelled as in the table, and every other string -
    a label in another case, an unknown one - gives [low].  The two
    Security Center tables share no label: one reads ['Critical'], the
    other ['CRITICAL']. *)
Theorem label_taxonomies_exact (s : string) :
  (AzureAgent._map_security_center_severity s ∈ canonical_severities ∧
   (AzureAgent._map_security_center_severity s = "critical" ↔ s = "Critical") ∧
   (AzureAgent._map_security_center_severity s = "high" ↔ s = "High") ∧
   (AzureAgent._map_security_center_severity s = "medium" ↔ s = "Medium") ∧
   (AzureAgent._map_security_center_severity s = "low" ↔
      s ≠ "Critical" ∧ s ≠ "High" ∧ s ≠ "Medium")) ∧
  (AzureAgent._map_monitor_severity s ∈ canonical_severities ∧
   (AzureAgent._map_monitor_severity s = "critical" ↔ s = "Critical") ∧
   (AzureAgent._map_monitor_severity s = "high" ↔ s = "Error") ∧
   (AzureAgent._map_monitor_severity s = "medium" ↔ s = "Warning") ∧
   (AzureAgent._map_monitor_severity s = "low" ↔
      s ≠ "Critical" ∧ s ≠ "Error" ∧ s ≠ "Warning")) ∧
  (GCPAgent._map_security_center_severity s ∈ canonical_severities ∧
   (GCPAgent._map_security_center_severity s = "critical" ↔ s = "CRITICAL") ∧
   (GCPAgent._map_security_center_severity s = "high" ↔ s = "HIGH") ∧
   (GCPAgent._map_security_center_severity s = "medium" ↔ s = "MEDIUM") ∧
   (GCPAgent._map_security_center_severity s = "low" ↔
      s ≠ "CRITICAL" ∧ s ≠ "HIGH" ∧ s ≠ "MEDIUM")) ∧
  (GCPAgent._map_logging_severity s ∈ canonical_severities ∧
   (GCPAgent._map_logging_severity s = "critical" ↔ s = "CRITICAL") ∧
   (GCPAgent._map_logging_severity s = "high" ↔ s = "ERROR") ∧
   (GCPAgent._map_logging_severity s = "medium" ↔ s = "WARNING") ∧
   (GCPAgent._map_logging_severity s = "low" ↔
      s ≠ "CRITICAL" ∧ s ≠ "ERROR" ∧ s ≠ "WARNING")) ∧
  (AzureAgent._map_security_center_severity s ≠ "low" →
     GCPAgent._map_security_center_severity s = "low").
Proof.
  split; [apply azure_security_center_table|].
  split; [apply azure_monitor_table|].
  split; [apply gcp_security_center_table|].
  split; [apply gcp_logging_table|].
  intros Hne.
  destruct (azure_security_center_table s) as (_ & _ & _ & _ & Hlow).
  apply gcp_security_center_table.
  destruct (decide (s = "Critical")) as [->|]; [done|].
  destruct (decide (s = "High")) as [->|]; [done|].
  destruct (decide (s = "Medium")) as [->|]; [done|].
  exfalso. apply Hne, Hlow. done.
Qed.

End LabelFacts.

(** ** The Wazuh connector *)

Section MoreWazuhFacts.
Import WazuhAgent.
Variable isoformat : Z → string.
Variable json_dumps : json → string.

Local Abbreviation parse := (parse_log isoformat json_dumps).

Ltac res_cases :=
  repeat match goal with
         | |- context [match ?x with Ret _ => _ | Raise _ => _ end] =>
             lazymatch x with
             | context [match _ with Ret _ => _ | Raise _ => _ end] => fail
             | _ => destruct x eqn:?; simpl
             end
         end.

(** X11: [parse_log] never raises.  An event it builds has [source]
    ['wazuh'] and one of the four levels as severity; a record it cannot
    read becomes the empty event.  A record without [rule] is read, with
    level 0: its severity is [low].  A record whose rule level cannot be
    compared with a number (a string, [null]) becomes the empty event. *)
Theorem wazuh_parse_log_cases (log : json) (w : World) :
  (∃ ev w',
     parse log w = (Ret (JObj ev), w') ∧
     (ev = ∅ ∨
      ∃ sev, ev !! "severity" = Some (JStr sev) ∧ sev ∈ canonical_severities ∧
             ev !! "source" = Some (JStr "wazuh"))) ∧
  (∀ d src,
     log = JObj d →
     Py.dget d "_source" (JObj ∅) = JObj src →
     src !! "rule" = None → src !! "agent" = None → src !! "data" = None →
     ∃ ev w',
       parse log w = (Ret (JObj ev), w') ∧
       ev !! "severity" = Some (JStr "low")) ∧
  (∀ d src rule level e,
     log = JObj d →
     Py.dget d "_source" (JObj ∅) = JObj src →
     src !! "rule" = Some (JObj rule) →
     rule !! "level" = Some level →
     Py.as_number level = Raise e →
     (parse log w).1 = Ret (JObj ∅)).
Proof.
  split; [|split].
  - unfold parse_log, rule_get, _map_severity, datetime_now. m_unfold.
    unfold mbind, res_bind, mret, res_ret.
    res_cases; try (eexists _, _; split; [reflexivity|]; by left).
    eexists _, _. split; [reflexivity|]. right. eexists. split; [|split].
    + repeat (rewrite lookup_insert_ne by done). apply lookup_insert_eq.
    + apply wazuh_canonical.
    + repeat (rewrite lookup_insert_ne by done). apply lookup_insert_eq.
  - intros d src -> Hsrc Hrule Hagent Hdata.
    unfold parse_log, rule_get, _map_severity, datetime_now, Py.get. m_unfold.
    unfold mbind, res_bind, mret, res_ret. simpl. rewrite Hsrc. simpl.
    unfold Py.dget.
    repeat (rewrite ?Hrule, ?Hagent, ?Hdata, ?lookup_empty; simpl).
    eexists _, _. split; [reflexivity|].
    repeat (rewrite lookup_insert_ne by done). apply lookup_insert_eq.
  - intros d src rule level e -> Hsrc Hrule Hlevel Hnum.
    unfold parse_log, rule_get, _map_severity, datetime_now, Py.get. m_unfold.
    unfold mbind, res_bind, mret, res_ret. simpl. rewrite Hsrc. simpl.
    unfold Py.dget. rewrite Hrule. simpl. rewrite Hlevel. simpl.
    rewrite Hnum. simpl. by res_cases.
Qed.

End MoreWazuhFacts.

Section WazuhFetchFacts.
Import WazuhSession.
Variable srv : Server.
Variable batch_size : Z.

Local Abbreviation fetch := (fetch_logs srv batch_size).

Ltac wazuh_unfold :=
  unfold fetch_logs, set_session, now, BaseLogAgent.now, BaseLogAgent.on_world,
    datetime_now, Py.get; m_unfold; unfold mbind, res_bind, mret, res_ret; simpl.

(** X12: [fetch_logs] of the Wazuh connector never raises.  Without a
    session it posts nothing and returns the empty list.  With one it
    posts one request, of [batch_size] alerts from one hour before the
    clock to the next reading of the clock when no bound is given, and
    returns [hits.hits] of the answer - the empty list when the answer has
    no [hits], when [hits] is not an object, when the answer is not an
    object or when the request fails. *)
Theorem wazuh_fetch_logs_hits (start_time end_time : option Z) (s : Site) :
  (∃ logs s', fetch start_time end_time s = (Ret logs, s')) ∧
  (has_session (BaseLogAgent.session s) = false →
     (fetch start_time end_time s).1 = Ret (JArr []) ∧
     posted (BaseLogAgent.session (fetch start_time end_time s).2)
       = posted (BaseLogAgent.session s)) ∧
  (has_session (BaseLogAgent.session s) = true →
     let w := BaseLogAgent.world s in
     posted (BaseLogAgent.session (fetch None None s).2) =
       posted (BaseLogAgent.session s) ++
         [mkQuery (wall_clock w (readings w) - 3600)
            (wall_clock w (S (readings w))) batch_size]) ∧
  (∀ a b,
     has_session (BaseLogAgent.session s) = true →
     (fetch (Some a) (Some b) s).1 =
       Ret match alerts srv (mkQuery a b batch_size) with
           | Ret (JObj data) =>
               match data !! "hits" with
               | None => JArr []
               | Some (JObj hits) => default (JArr []) (hits !! "hits")
               | Some _ => JArr []
               end
           | _ => JArr []
           end).
Proof.
  destruct s as [w [has sent]]. simpl.
  split; [|split; [|split]].
  - wazuh_unfold. destruct start_time, end_time, has; simpl; try by eexists _, _.
    all: destruct (alerts srv _) as [[| | | | |data]|e]; simpl; try by eexists _, _.
    all: unfold Py.dget; destruct (data !! "hits") as [[| | | | |hits]|]; simpl;
      by eexists _, _.
  - intros ->. wazuh_unfold. by destruct start_time, end_time.
  - intros ->. wazuh_unfold.
    destruct (alerts srv _) as [[| | | | |data]|e]; simpl; try done.
    unfold Py.dget. by destruct (data !! "hits") as [[| | | | |hits]|].
  - intros a b ->. wazuh_unfold.
    destruct (alerts srv _) as [[| | | | |data]|e]; simpl; try done.
    unfold Py.dget. by destruct (data !! "hits") as [[| | | | |hits]|].
Qed.

End WazuhFetchFacts.

(** ** The message bus, method by method *)

Section MoreBusFacts.
Import MessageBus Cycle.
Context {Body : Type}.
Variable json_dumps : json → Body.
Variable json_loads : Body → Res json.
Variable isoformat : Z → string.
Context {H : Type}.

Local Abbreviation publish := (publish json_dumps isoformat).
Local Abbreviation deliver_next := (deliver_next json_loads).
Local Abbreviation deliveries := (deliveries json_loads).
Local Abbreviation consume := (consume json_loads).
Local Abbreviation stamp := (λ (t : Z) (m : dict), <["timestamp" := JStr (isoformat t)]> m).

Lemma pending_nonempty queue body rest (σ : State (Body := Body) H) :
  pending queue σ = body :: rest →
  ready (channel σ) !! queue = Some (body :: rest).
Proof.
  unfold pending. destruct (ready (channel σ) !! queue) as [l|]; simpl; [|done].
  by intros ->.
Qed.

Lemma set_pending_twice queue l1 l2 (σ : State (Body := Body) H) :
  set_pending queue l2 (set_pending queue l1 σ) = set_pending queue l2 σ.
Proof. unfold set_pending. simpl. by rewrite insert_insert_eq. Qed.

Lemma set_pending_same queue l (σ : State (Body := Body) H) :
  ready (channel σ) !! queue = Some l → set_pending queue l σ = σ.
Proof.
  intros Hl. unfold set_pending. rewrite (insert_id _ _ _ Hl).
  by destruct σ as [w h [o r] hd].
Qed.

Lemma pending_set_pending_ne queue queue' l (σ : State (Body := Body) H) :
  queue ≠ queue' → pending queue' (set_pending queue l σ) = pending queue' σ.
Proof.
  intros Hne. unfold pending, set_pending. simpl. by rewrite lookup_insert_ne.
Qed.

(** X13: a queue contract violation fails fast.  [publish] and [consume]
    on a name that is not declared raise [ValueError] and leave the
    process as it was: no timestamp is written, the clock is not read,
    nothing is queued or delivered.  The declared names are the broker
    names ([security_logs], ...), not the short keys ([logs], ...) of
    [self.queues]. *)
Theorem undeclared_queue_fails_fast :
  (∀ queue message (σ : State H),
     declared queue = false →
     publish queue message σ = (Raise (ValueError ("Invalid queue: " +:+ queue)), σ)) ∧
  (∀ n queue callback (σ : State H),
     declared queue = false →
     consume n queue callback σ
       = (Raise (ValueError ("Invalid queue: " +:+ queue)), σ)) ∧
  (∀ key name, (key, name) ∈ queues →
     declared name = true ∧ declared key = false).
Proof.
  split; [|split].
  - intros queue message σ Hq. unfold MessageBus.publish. m_unfold. by rewrite Hq.
  - intros n queue callback σ Hq. unfold MessageBus.consume. m_unfold. by rewrite Hq.
  - intros key name Hin. unfold queues in Hin.
    repeat (apply elem_of_cons in Hin as [[= -> ->]|Hin]; [by split|]).
    by apply elem_of_nil in Hin.
Qed.

(** X14: on a closed channel [publish] raises, and queues nothing; the
    caller's dict has its ['timestamp'] replaced all the same, for the
    assignment comes before the send. *)
Theorem publish_on_closed_channel queue message m (σ : State H) :
  declared queue = true →
  heap σ !! message = Some m →
  is_open (channel σ) = false →
  ∃ σ',
    publish queue message σ
      = (Raise (mkExn "ChannelWrongStateError" "Channel is closed."), σ') ∧
    channel σ' = channel σ ∧
    heap σ' !! message = Some (stamp (next_reading (world σ)) m).
Proof.
  intros Hq Hm Hclosed.
  rewrite (publish_declared json_dumps isoformat queue message m σ Hq Hm).
  simpl. rewrite Hclosed. eexists. split; [reflexivity|]. split; [done|].
  simpl. apply lookup_insert_eq.
Qed.

(** X15: [publish] queues at the tail.  The messages already ready in the
    queue keep their place, the new body comes last, the other queues and
    the callback's state are untouched. *)
Theorem publish_appends_to_queue queue message m (σ : State H) :
  declared queue = true →
  heap σ !! message = Some m →
  is_open (channel σ) = true →
  ∃ σ',
    publish queue message σ = (Ret tt, σ') ∧
    pending queue σ' =
      pending queue σ ++ [json_dumps (JObj (stamp (next_reading (world σ)) m))] ∧
    (∀ other, other ≠ queue → pending other σ' = pending other σ) ∧
    handler σ' = handler σ.
Proof.
  intros Hq Hm Hopen.
  rewrite (publish_declared json_dumps isoformat queue message m σ Hq Hm).
  simpl. rewrite Hopen. eexists. split; [reflexivity|]. split; [|split].
  - by rewrite pending_set_pending.
  - intros other Hne. by rewrite pending_set_pending_ne.
  - done.
Qed.

(** X16: how a delivery is settled.  The oldest ready message goes to the
    callback, out of the queue while in flight.  When the callback
    returns the message is gone; when it raises the message is back at
    the front of the queue, to be delivered again.  What the callback did
    to the state stays in both cases. *)
Theorem deliver_next_settles
    queue callback body rest message r (σ σ2 : State H) :
  pending queue σ = body :: rest →
  json_loads body = Ret message →
  callback message (set_pending queue rest σ) = (r, σ2) →
  pending queue σ2 = rest →
  ∃ σ3,
    deliver_next queue callback σ = (Ret true, σ3) ∧
    handler σ3 = handler σ2 ∧
    heap σ3 = heap σ2 ∧
    pending queue σ3 =
      match r with Ret _ => rest | Raise _ => body :: rest end.
Proof.
  intros Hp Hl Hcb Hrest.
  rewrite (deliver_next_head json_loads queue callback body rest σ Hp).
  rewrite Hl, Hcb. destruct r as [[]|e].
  - by eexists.
  - eexists. split; [reflexivity|]. split; [done|]. split; [done|].
    by rewrite pending_set_pending, Hrest.
Qed.

Lemma deliver_next_unparsable queue callback body rest e (σ : State H) :
  pending queue σ = body :: rest →
  json_loads body = Raise e →
  deliver_next queue callback σ = (Ret true, σ).
Proof.
  intros Hp Hl.
  rewrite (deliver_next_head json_loads queue callback body rest σ Hp), Hl.
  rewrite set_pending_twice, set_pending_same; [done|].
  by apply pending_nonempty.
Qed.

(** X17: a body that is not JSON blocks its queue.  The callback is never
    called for it; every turn of the loop rejects it and puts it back at
    the front, so that however many turns are taken the process is
    exactly as before and the messages behind it are never delivered. *)
Theorem unparsable_message_blocks_queue
    n queue callback body rest e (σ : State H) :
  pending queue σ = body :: rest →
  json_loads body = Raise e →
  deliveries n queue callback σ = (Ret tt, σ).
Proof.
  intros Hp Hl. induction n as [|n IH]; simpl; [done|].
  unfold mbind, m_bind.
  by rewrite (deliver_next_unparsable queue callback body rest e σ Hp Hl).
Qed.

End MoreBusFacts.

Section BusOrderFacts.
Import MessageBus Cycle.
Context {Body : Type}.
Variable json_dumps : json → Body.
Variable json_loads : Body → Res json.
Variable isoformat : Z → string.

Local Abbreviation publish := (publish (H := list json) json_dumps isoformat).
Local Abbreviation deliveries := (deliveries (H := list json) json_loads).
Local Abbreviation stamp := (λ (t : Z) (m : dict), <["timestamp" := JStr (isoformat t)]> m).

(** Two messages published to an empty queue, the second from the dict
    [m2] that its reference denotes once the first is sent. *)
Lemma publish_two queue r1 r2 m1 m2 (σ : State (list json)) :
  declared queue = true →
  is_open (channel σ) = true →
  pending queue σ = [] →
  heap σ !! r1 = Some m1 →
  <[r1 := stamp (next_reading (world σ)) m1]> (heap σ) !! r2 = Some m2 →
  ∃ σ1 σ2,
    publish queue r1 σ = (Ret tt, σ1) ∧
    publish queue r2 σ1 = (Ret tt, σ2) ∧
    handler σ2 = handler σ ∧
    heap σ2 !! r2 = Some (stamp (wall_clock (world σ) (S (readings (world σ)))) m2) ∧
    ready (channel σ2) !! queue =
      Some [json_dumps (JObj (stamp (next_reading (world σ)) m1));
            json_dumps (JObj (stamp (wall_clock (world σ) (S (readings (world σ)))) m2))].
Proof.
  intros Hq Hopen Hempty Hm1 Hm2.
  rewrite (publish_declared json_dumps isoformat queue r1 m1 σ Hq Hm1).
  simpl. rewrite Hopen. eexists _, _. split; [reflexivity|].
  erewrite (publish_declared json_dumps isoformat queue r2 m2); [|done|exact Hm2].
  simpl. rewrite Hopen. split; [reflexivity|]. split; [done|]. split.
  - simpl. apply lookup_insert_eq.
  - unfold pending in Hempty.
    unfold pending, BusSpec.stamped, set_pending. simpl.
    rewrite !lookup_insert_eq. simpl. by rewrite Hempty.
Qed.

Lemma deliver_two_kept queue b1 b2 v1 v2 (σ : State (list json)) :
  ready (channel σ) !! queue = Some [b1; b2] →
  json_loads b1 = Ret v1 →
  json_loads b2 = Ret v2 →
  ∃ σ',
    deliveries 2 queue Observer.keep σ = (Ret tt, σ') ∧
    handler σ' = handler σ ++ [v1; v2] ∧
    pending queue σ' = [] ∧
    heap σ' = heap σ.
Proof.
  intros Hr H1 H2. simpl. unfold mbind, m_bind.
  erewrite (deliver_next_head json_loads queue _ b1 [b2]);
    [|unfold pending; by rewrite Hr].
  rewrite H1. unfold Observer.keep at 1. m_unfold.
  erewrite (deliver_next_head json_loads queue _ b2 []);
    [|unfold pending, set_pending; simpl; by rewrite lookup_insert_eq].
  rewrite H2. unfold Observer.keep. m_unfold. unfold mret, m_ret.
  eexists. split; [reflexivity|]. simpl. split; [by rewrite <- app_assoc|].
  split; [|done]. unfold pending. simpl. by rewrite lookup_insert_eq.
Qed.

(** X18: first in, first out.  Two events published one after the other
    to an empty queue are delivered in that order, each with its own
    publish time as ['timestamp'], and the queue is empty again once the
    callback has returned for both. *)
Theorem published_in_order_delivered_in_order
    queue r1 r2 m1 m2 (σ : State (list json)) :
  let t1 := next_reading (world σ) in
  let t2 := wall_clock (world σ) (S (readings (world σ))) in
  declared queue = true →
  is_open (channel σ) = true →
  pending queue σ = [] →
  r1 ≠ r2 →
  heap σ !! r1 = Some m1 →
  heap σ !! r2 = Some m2 →
  json_loads (json_dumps (JObj (stamp t1 m1))) = Ret (JObj (stamp t1 m1)) →
  json_loads (json_dumps (JObj (stamp t2 m2))) = Ret (JObj (stamp t2 m2)) →
  ∃ σ1 σ2 σ3,
    publish queue r1 σ = (Ret tt, σ1) ∧
    publish queue r2 σ1 = (Ret tt, σ2) ∧
    deliveries 2 queue Observer.keep σ2 = (Ret tt, σ3) ∧
    handler σ3 = handler σ ++ [JObj (stamp t1 m1); JObj (stamp t2 m2)] ∧
    pending queue σ3 = [].
Proof.
  intros t1 t2 Hq Hopen Hempty Hne Hm1 Hm2 Hrt1 Hrt2.
  destruct (publish_two queue r1 r2 m1 m2 σ Hq Hopen Hempty Hm1)
    as (σ1 & σ2 & Hp1 & Hp2 & Hh & _ & Hready).
  { by rewrite lookup_insert_ne. }
  destruct (deliver_two_kept queue _ _ _ _ σ2 Hready Hrt1 Hrt2)
    as (σ3 & Hd & Hkept & Hp & _).
  exists σ1, σ2, σ3. by rewrite Hkept, Hh.
Qed.

(** X19: the body is written when [publish] is called.  Publishing the
    same dict twice queues two bodies: the first keeps the first publish
    time although the dict itself, changed in place by the second call,
    now holds the second. *)
Theorem publish_same_dict_twice queue r m (σ : State (list json)) :
  let t1 := next_reading (world σ) in
  let t2 := wall_clock (world σ) (S (readings (world σ))) in
  declared queue = true →
  is_open (channel σ) = true →
  pending queue σ = [] →
  heap σ !! r = Some m →
  ∃ σ1 σ2,
    publish queue r σ = (Ret tt, σ1) ∧
    publish queue r σ1 = (Ret tt, σ2) ∧
    heap σ2 !! r = Some (stamp t2 m) ∧
    pending queue σ2 =
      [json_dumps (JObj (stamp t1 m)); json_dumps (JObj (stamp t2 m))].
Proof.
  intros t1 t2 Hq Hopen Hempty Hm.
  destruct (publish_two queue r r m (stamp t1 m) σ Hq Hopen Hempty Hm)
    as (σ1 & σ2 & Hp1 & Hp2 & _ & Hheap & Hready).
  { apply lookup_insert_eq. }
  exists σ1, σ2. split; [done|]. split; [done|].
  rewrite insert_insert_eq in Hheap, Hready. split; [done|].
  unfold pending. by rewrite Hready.
Qed.

End BusOrderFacts.

(** ** The scheduler *)

Section MoreRunnerFacts.
Import BaseLogAgent AgentRunner Cycle.
Context {C Body : Type}.

Lemma run_agent_returns agent_name (d : Deployment C Body) :
  (run_agent agent_name d).1 = Ret tt.
Proof.
  unfold run_agent, agent_run, log. m_unfold.
  destruct (agents d !! agent_name) as [a|]; simpl; [|done].
  by destruct (run _ _) as [[[|ev logs]|e] ag].
Qed.

(** X20: [run_agent] never raises, whatever the connector does.  For a
    name that is not registered it logs that and changes nothing else.
    For a registered agent it runs one cycle: only that agent's entry can
    change, and the log tells the outcome - events collected, no new logs
    (also what a cycle with a connector-level failure looks like, since
    [run] returned the empty list), or an error when [run] itself raised
    from [disconnect]. *)
Theorem run_agent_never_raises agent_name (d : Deployment C Body) :
  (run_agent agent_name d).1 = Ret tt ∧
  (agents d !! agent_name = None →
     (run_agent agent_name d).2
       = mkDeployment (clock d) (agents d) (logger d ++ [NotFound agent_name])
           (broker d)) ∧
  (∀ other, other ≠ agent_name →
     agents (run_agent agent_name d).2 !! other = agents d !! other) ∧
  (∀ a, agents d !! agent_name = Some a →
     let cycle := run (kind a) (mkAgent (mkSite (clock d) (conn a)) (watermark a)) in
     logger (run_agent agent_name d).2 =
       logger d ++ [Running agent_name;
                    match cycle.1 with
                    | Ret [] => NoNewLogs agent_name
                    | Ret (ev :: evs) => Collected (S (length evs)) agent_name
                    | Raise e => ErrorRunning agent_name e
                    end] ∧
     agents (run_agent agent_name d).2 !! agent_name =
       Some (mkManaged (kind a) (session (site cycle.2)) (last_run cycle.2))).
Proof.
  split; [apply run_agent_returns|].
  unfold run_agent, agent_run, log. m_unfold.
  split; [|split].
  - by intros ->.
  - intros other Hne.
    destruct (agents d !! agent_name) as [a|]; simpl; [|done].
    destruct (run _ _) as [[[|ev logs]|e] ag]; simpl;
      by rewrite lookup_insert_ne.
  - intros a ->. simpl.
    destruct (run _ _) as [[[|ev logs]|e] ag]; simpl;
      rewrite lookup_insert_eq, <- app_assoc; done.
Qed.

End MoreRunnerFacts.

(** ** The response parser of the analysis engine *)

Section ParserFacts.
Import LLMAnalysisEngine Parse.

Lemma foldl_invariant {A B} (f : A → B → A) (P : A → Prop) (l : list B) :
  (∀ a x, x ∈ l → P a → P (f a x)) → ∀ a, P a → P (foldl f a l).
Proof.
  induction l as [|x l IH]; intros Hstep a Ha; simpl; [done|].
  apply IH.
  - intros a' y Hy. apply Hstep. by right.
  - apply Hstep; [by left|done].
Qed.

Lemma eqb_empty_false (s : string) : String.eqb s "" = false → s ≠ "".
Proof. intros Hs ->. discriminate Hs. Qed.

(** What a collected line looks like. *)
Local Abbreviation collected lines := (λ x : string,
  x ≠ "" ∧ keyword_free x = true ∧
  ∃ line, line ∈ (lines : list string) ∧ x = PyStr.strip line).

Lemma parse_line_collects (lines : list string) acc line :
  line ∈ lines →
  Forall (collected lines) (recommendations acc.1) ∧
    Forall (collected lines) (iocs acc.1) →
  Forall (collected lines) (recommendations (parse_line acc line).1) ∧
    Forall (collected lines) (iocs (parse_line acc line).1).
Proof.
  intros Hin [Hr Hi]. destruct acc as [result section]. unfold parse_line.
  simpl in *.
  destruct (String.eqb (PyStr.strip line) "") eqn:He; [done|].
  destruct (PyStr.contains "severity" _) eqn:H1; [done|].
  destruct (PyStr.contains "impact" _) eqn:H2; [done|].
  destruct (PyStr.contains "recommend" _) eqn:H3; [done|].
  destruct (PyStr.contains "indicator" _) eqn:H4; [done|].
  assert (Hc : collected lines (PyStr.strip line)).
  { split; [by apply eqb_empty_false|]. split; [|by exists line].
    unfold keyword_free, mentions. by rewrite H1, H2, H3, H4. }
  destruct section as [[| |]|]; simpl; try done.
  - split; [|done]. apply Forall_app. split; [done|]. by constructor.
  - split; [done|]. apply Forall_app. split; [done|]. by constructor.
Qed.


Lemma parse_line_free (line : string) :
  keyword_free (PyStr.strip line) = true →
  parse_line (mkAnalysis "unknown" "" [] [], None) line
    = (mkAnalysis "unknown" "" [] [], None).
Proof.
  intros Hline. unfold parse_line. unfold keyword_free, mentions in Hline.
  apply andb_true_iff in Hline as [Hline H4].
  apply andb_true_iff in Hline as [Hline H3].
  apply andb_true_iff in Hline as [H1 H2].
  apply negb_true_iff in H1, H2, H3, H4.
  rewrite H1, H2, H3, H4.
  by destruct (String.eqb (PyStr.strip line) "").
Qed.

(** X22: free text is discarded.  A response in which no line has one of
    the four words parses to the initial result - severity [unknown], no
    impact, no recommendation, no indicator - whatever its lines say. *)
Theorem parser_ignores_text_without_headers (response : string) :
  Forall (λ line, keyword_free (PyStr.strip line) = true)
    (PyStr.split PyStr.newline response) →
  _parse_analysis_response response = mkAnalysis "unknown" "" [] [].
Proof.
  intros Hfree. unfold _parse_analysis_response.
  assert (Hfold : foldl parse_line (mkAnalysis "unknown" "" [] [], None)
                    (PyStr.split PyStr.newline response)
                  = (mkAnalysis "unknown" "" [] [], None)); [|by rewrite Hfold].
  induction Hfree as [|line lines Hline _ IH]; [done|].
  cbn [foldl]. by rewrite parse_line_free.
Qed.

Lemma parse_line_severity acc line :
  severity (parse_line acc line).1 =
    if sets_severity line then captured line else severity acc.1.
Proof.
  destruct acc as [result section]. unfold parse_line, sets_severity, mentions,
    captured. simpl.
  destruct (String.eqb (PyStr.strip line) ""); simpl; [done|].
  destruct (PyStr.contains "severity" _); simpl; [done|].
  destruct (PyStr.contains "impact" _); [done|].
  destruct (PyStr.contains "recommend" _); [done|].
  destruct (PyStr.contains "indicator" _); [done|].
  by destruct section as [[| |]|].
Qed.


End ParserFacts.

(** ** Incident summaries *)

Section IncidentFacts.
Import LLMIncident.
Variable str : json → string.
Variable join_comma : json → Res string.
Variable incident_summary_prompt : string → Res string.
Variable generate : string → Res string.

Local Abbreviation summarize :=
  (summarize_incident str join_comma incident_summary_prompt generate).
Local Abbreviation attempt :=
  (summary_attempt str join_comma incident_summary_prompt generate).


End IncidentFacts.

(** ** Alert fan-out, sender by sender *)

Section MoreNotifierFacts.
Import Notifier.
Variable str : json → string.
Variable join_lines : json → Res string.
Variable strftime : Z → string.
Variable cfg : Config.
Variable net : Transport.

Local Abbreviation slack := (_send_slack_alert str join_lines strftime cfg net).
Local Abbreviation email := (_send_email_alert str join_lines strftime cfg net).
Local Abbreviation deliver := (deliver str join_lines strftime cfg net).
Local Abbreviation send_alert := (send_alert str join_lines strftime cfg net).

Ltac notifier_unfold :=
  unfold _send_slack_alert, _send_email_alert, note_attempt, note_delivered,
    now, datetime_now; m_unfold.

(** X25: a sender that is not configured raises before anything is
    rendered or sent.  Without a webhook URL (unset or empty) the Slack
    sender raises [ValueError]; without SMTP user name or password the
    email sender does: nothing is delivered and the clock is not read.
    [send_alert] swallows both: on a notifier with neither configured it
    returns normally and has delivered nothing. *)
Theorem unconfigured_senders_deliver_nothing (alert : dict) (σ : State) :
  (truthy (slack_webhook_url cfg) = false →
     slack alert σ =
       (Raise (ValueError "Slack webhook URL not configured"),
        mkState (world σ) (attempted σ ++ ["slack"]) (delivered σ))) ∧
  (truthy (smtp_username cfg) && truthy (smtp_password cfg) = false →
     email alert σ =
       (Raise (ValueError "SMTP credentials not configured"),
        mkState (world σ) (attempted σ ++ ["email"]) (delivered σ))) ∧
  (truthy (slack_webhook_url cfg) = false →
   truthy (smtp_username cfg) && truthy (smtp_password cfg) = false →
     send_alert alert None σ =
       (Ret tt, mkState (world σ) (attempted σ ++ ["slack"; "email"]) (delivered σ))).
Proof.
  split; [|split].
  - intros Hs. notifier_unfold. simpl. by rewrite Hs.
  - intros He. notifier_unfold. simpl. by rewrite He.
  - intros Hs He. unfold Notifier.send_alert, channels_or_default, send_each,
      send_one, Notifier.deliver. simpl.
    notifier_unfold. simpl. rewrite Hs, He. simpl.
    by rewrite <- app_assoc.
Qed.

Lemma deliver_unsupported alert channel (σ : State) :
  FanOut.supported channel = false → deliver alert channel σ = (Ret tt, σ).
Proof.
  unfold FanOut.supported, Notifier.deliver. intros Hs.
  apply orb_false_iff in Hs as [-> ->]. done.
Qed.


Ltac nothing_new := exists []; split; [by rewrite app_nil_r | simpl; lia].

Lemma slack_delivers_at_most_one alert (σ : State) :
  ∃ new, delivered (slack alert σ).2 = delivered σ ++ new ∧ (length new <= 1)%nat.
Proof.
  notifier_unfold. simpl.
  destruct (truthy (slack_webhook_url cfg)); simpl;
    [|nothing_new].
  destruct (lower _) as [sev|e]; simpl; [|nothing_new].
  destruct (join_lines _) as [recs|e]; simpl; [|nothing_new].
  destruct (requests_post net _ _ _) as [[]|e]; simpl;
    [|nothing_new].
  eexists [_]. split; [done|simpl; lia].
Qed.

Lemma email_delivers_at_most_one alert (σ : State) :
  ∃ new, delivered (email alert σ).2 = delivered σ ++ new ∧ (length new <= 1)%nat.
Proof.
  notifier_unfold. simpl.
  destruct (truthy (smtp_username cfg) && truthy (smtp_password cfg)); simpl;
    [|nothing_new].
  destruct (default_recipients cfg) as [rcpt|]; simpl;
    [|nothing_new].
  destruct (join_lines _) as [recs|e]; simpl; [|nothing_new].
  destruct (smtp_send net _ _) as [[]|e]; simpl;
    [|nothing_new].
  eexists [_]. split; [done|simpl; lia].
Qed.

Lemma deliver_delivers_at_most_one alert channel (σ : State) :
  ∃ new,
    delivered (deliver alert channel σ).2 = delivered σ ++ new ∧
    (length new <= length (List.filter FanOut.supported [channel]))%nat.
Proof.
  unfold Notifier.deliver, FanOut.supported. simpl.
  destruct (String.eqb channel "slack"); simpl;
    [apply slack_delivers_at_most_one|].
  destruct (String.eqb channel "email"); simpl;
    [apply email_delivers_at_most_one|].
  nothing_new.
Qed.

(** X27: no retry and no loss of what was sent.  [send_alert] only adds
    to the messages delivered, in order, and adds at most one message per
    ['slack'] or ['email'] of the channel list: a channel that failed is
    not tried again within the call. *)
Theorem send_alert_delivers_at_most_once
    (alert : dict) (channels : option (list string)) (σ : State) :
  ∃ new,
    delivered (send_alert alert channels σ).2 = delivered σ ++ new ∧
    (length new
       <= length (List.filter FanOut.supported (channels_or_default channels)))%nat.
Proof.
  unfold Notifier.send_alert.
  rewrite (send_each_spec str join_lines strftime cfg net). simpl.
  generalize (channels_or_default channels). intros l. revert σ.
  induction l as [|channel rest IH]; intros σ.
  - nothing_new.
  - cbn [foldl].
    destruct (deliver_delivers_at_most_one alert channel σ) as (n1 & H1 & L1).
    destruct (IH (deliver alert channel σ).2) as (n2 & H2 & L2).
    exists (n1 ++ n2). split.
    + by rewrite H2, H1, app_assoc.
    + change (channel :: rest) with ([channel] ++ rest).
      rewrite List.filter_app, !length_app. lia.
Qed.

(** X28: the colour of a Slack message follows the alert's severity
    without regard to case: [critical] red, [high] orange, [medium]
    yellow, [low] green, any other word grey; an alert without severity
    is coloured as [medium].  A severity that is not a string makes the
    sender raise, and nothing is sent. *)
Theorem slack_message_colour (alert : dict) (σ σ' : State) :
  (slack alert σ = (Ret tt, σ') →
     ∃ s m,
       Py.dget alert "severity" (JStr "medium") = JStr s ∧
       delivered σ' = delivered σ ++ [ToSlack m] ∧
       color m =
         (if String.eqb (PyStr.lower s) "critical" then "#FF0000"
          else if String.eqb (PyStr.lower s) "high" then "#FFA500"
          else if String.eqb (PyStr.lower s) "medium" then "#FFFF00"
          else if String.eqb (PyStr.lower s) "low" then "#00FF00"
          else "#808080")) ∧
  ((∀ s, Py.dget alert "severity" (JStr "medium") ≠ JStr s) →
     ∃ e, (slack alert σ).1 = Raise e ∧ delivered (slack alert σ).2 = delivered σ).
Proof.
  notifier_unfold. simpl. split.
  - destruct (truthy (slack_webhook_url cfg)); simpl; [|done].
    destruct (Py.dget alert "severity" (JStr "medium")) as [| | |s| |] eqn:Hsev;
      simpl; try done.
    destruct (join_lines _) as [recs|e]; simpl; [|done].
    destruct (requests_post net _ _ _) as [[]|e]; simpl; [|done].
    intros [= <-]. simpl. eexists s, _. split; [done|]. split; [done|].
    simpl.
    destruct (String.eqb (PyStr.lower s) "critical") eqn:E1;
      [apply String.eqb_eq in E1 as ->; done|apply String.eqb_neq in E1].
    destruct (String.eqb (PyStr.lower s) "high") eqn:E2;
      [apply String.eqb_eq in E2 as ->; done|apply String.eqb_neq in E2].
    destruct (String.eqb (PyStr.lower s) "medium") eqn:E3;
      [apply String.eqb_eq in E3 as ->; done|apply String.eqb_neq in E3].
    destruct (String.eqb (PyStr.lower s) "low") eqn:E4;
      [apply String.eqb_eq in E4 as ->; done|apply String.eqb_neq in E4].
    repeat (rewrite lookup_insert_ne by done). by rewrite lookup_empty.
  - intros Hns.
    destruct (truthy (slack_webhook_url cfg)); simpl; [|by eexists].
    destruct (Py.dget alert "severity" (JStr "medium")) as [| | |s| |] eqn:Hsev;
      simpl; try by eexists.
    by destruct (Hns s).
Qed.

End MoreNotifierFacts.

(** ** The analysis stage *)

Section AnalysisStageFacts.
Import MessageBus AnalysisRunner Cycle.
Context {Body : Type}.
Variable json_dumps : json → Body.
Variable json_loads : Body → Res json.
Variable isoformat : Z → string.
Variable str : json → string.
Variable eng : LLMAnalysisEngine.Engine.
Variable join_lines : json → Res string.
Variable strftime : Z → string.
Variable cfg : Notifier.Config.
Variable net : Notifier.Transport.

Local Abbreviation process :=
  (process_event json_dumps isoformat str eng join_lines strftime cfg net).
Local Abbreviation analyze := (LLMAnalysisEngine.analyze_security_event str eng).
Local Abbreviation notify :=
  (Notifier.send_alert str join_lines strftime cfg net).
Local Abbreviation analysis_message := (λ (d : dict) analysis,
  (list_to_map [("event_id", Py.dget d "id" JNull);
                ("analysis", analysis_json analysis)] : dict)).

Lemma m_try_unit {Σ} (body : M Σ unit) (σ : Σ) :
  (m_try body (λ e, mret tt) σ).1 = Ret tt.
Proof. unfold m_try. by destruct (body σ) as [[[]|e] σ']. Qed.

Lemma analyze_returns event : ∃ analysis, analyze event = Ret analysis.
Proof.
  unfold LLMAnalysisEngine.analyze_security_event, try_except.
  destruct (LLMAnalysisEngine.analysis_attempt str eng event); by eexists.
Qed.

Lemma notify_default alert (n : Notifier.State) :
  ∃ n', notify alert None n = (Ret tt, n') ∧
        Notifier.attempted n' = Notifier.attempted n ++ ["slack"; "email"].
Proof.
  unfold Notifier.send_alert.
  rewrite (send_each_spec str join_lines strftime cfg net).
  eexists. split; [reflexivity|].
  by rewrite (foldl_attempted str join_lines strftime cfg net).
Qed.


Lemma process_event_other_queues queue event (σ : State (Body := Body)) :
  queue ≠ "security_analysis" →
  pending queue (process event σ).2 = pending queue σ.
Proof.
  intros Hne. destruct (analyze_returns event) as [analysis Ha].
  unfold process_event, log_event_id, new_dict, on_notifier. m_unfold.
  rewrite Ha. cbn -[MessageBus.publish fresh Notifier.send_alert].
  destruct event as [| | | | |d]; try done.
  cbn -[MessageBus.publish fresh Notifier.send_alert].
  destruct (alerting (LLMAnalysisEngine.severity analysis)).
  - cbn -[MessageBus.publish fresh Notifier.send_alert].
    match goal with |- context [notify ?a None ?n] =>
      destruct (notify_default a n) as (n' & -> & _) end.
    cbn -[MessageBus.publish fresh].
    erewrite (publish_declared json_dumps isoformat "security_analysis");
      [|reflexivity|cbn -[fresh]; apply lookup_insert_eq].
    cbn -[fresh]. destruct (is_open (channel σ)); cbn -[fresh]; [|done].
    unfold pending. cbn -[fresh]. by rewrite lookup_insert_ne.
  - cbn -[MessageBus.publish fresh].
    erewrite (publish_declared json_dumps isoformat "security_analysis");
      [|reflexivity|cbn -[fresh]; apply lookup_insert_eq].
    cbn -[fresh]. destruct (is_open (channel σ)); cbn -[fresh]; [|done].
    unfold pending. cbn -[fresh]. by rewrite lookup_insert_ne.
Qed.


End AnalysisStageFacts.

(** ** The further properties on the sample instances *)

Section MoreExamples.
Import Sample Fixture.


Lemma splunk_failed_connect_cycle_witness :
  BaseLogAgent.run (SplunkAgent.connector isoformat0 splunk_down "main" 300)
    (splunk_agent (Some 1000))
  = (Ret [], splunk_agent (Some 1000)).
Proof.
  apply (splunk_failed_connect_cycle isoformat0 splunk_down "main" 300
           (splunk_agent (Some 1000)) (ConnectionError "connection refused")).
  - reflexivity.
  - reflexivity.
Defined.

Lemma publish_on_closed_channel_witness :
  (MessageBus.publish (λ v, v) isoformat0 "security_logs" 1%positive bus_closed).1
  = Raise (mkExn "ChannelWrongStateError" "Channel is closed.").
Proof.
  destruct (publish_on_closed_channel (λ v, v) isoformat0 "security_logs"
              1%positive event0 bus_closed eq_refl (lookup_singleton_eq _ _) eq_refl)
    as (σ' & Hp & _).
  by rewrite Hp.
Defined.

Lemma publish_appends_to_queue_witness :
  (MessageBus.publish (λ v, v) isoformat0 "security_logs" 1%positive bus0).1
  = Ret tt.
Proof.
  destruct (publish_appends_to_queue (λ v, v) isoformat0 "security_logs"
              1%positive event0 bus0 eq_refl (lookup_singleton_eq _ _) eq_refl)
    as (σ' & Hp & _).
  by rewrite Hp.
Defined.

Lemma deliver_next_settles_witness :
  (MessageBus.deliver_next Ret "security_logs" recorder bus_ready).1 = Ret true.
Proof.
  destruct (deliver_next_settles Ret "security_logs" recorder (JObj event0) []
              (JObj event0) (Ret tt) bus_ready
              (recorder (JObj event0)
                 (MessageBus.set_pending "security_logs" [] bus_ready)).2)
    as (σ3 & Hd & _).
  - unfold MessageBus.pending, bus_ready. simpl. by rewrite lookup_singleton_eq.
  - reflexivity.
  - reflexivity.
  - unfold recorder, modify, MessageBus.pending, MessageBus.set_pending. simpl.
    by rewrite lookup_insert_eq.
  - by rewrite Hd.
Defined.

Lemma unparsable_message_blocks_queue_witness :
  MessageBus.deliveries loads_never 3 "security_logs" recorder bus_ready
  = (Ret tt, bus_ready).
Proof.
  apply (unparsable_message_blocks_queue loads_never 3 "security_logs" recorder
           (JObj event0) [] (mkExn "JSONDecodeError" "Expecting value") bus_ready).
  - unfold MessageBus.pending, bus_ready. simpl. by rewrite lookup_singleton_eq.
  - reflexivity.
Defined.

Lemma published_in_order_delivered_in_order_witness :
  ∃ σ1 σ2 σ3,
    MessageBus.publish (λ v, v) isoformat0 "security_logs" 1%positive bus_two
      = (Ret tt, σ1) ∧
    MessageBus.publish (λ v, v) isoformat0 "security_logs" 2%positive σ1
      = (Ret tt, σ2) ∧
    MessageBus.deliveries Ret 2 "security_logs" Observer.keep σ2 = (Ret tt, σ3) ∧
    MessageBus.handler σ3 =
      [JObj (<["timestamp" := JStr "2024-06-01T12:00:00"]> event0);
       JObj (<["timestamp" := JStr "2024-06-01T12:00:00"]> event1)] ∧
    MessageBus.pending "security_logs" σ3 = [].
Proof.
  apply (published_in_order_delivered_in_order (λ v, v) Ret isoformat0
           "security_logs" 1%positive 2%positive event0 event1 bus_two).
  - reflexivity.
  - reflexivity.
  - reflexivity.
  - done.
  - unfold bus_two. simpl. rewrite lookup_insert_ne by done.
    apply lookup_singleton_eq.
  - unfold bus_two. simpl. apply lookup_insert_eq.
  - reflexivity.
  - reflexivity.
Defined.

Lemma publish_same_dict_twice_witness :
  ∃ σ1 σ2,
    MessageBus.publish (λ v, v) isoformat0 "security_logs" 1%positive bus0
      = (Ret tt, σ1) ∧
    MessageBus.publish (λ v, v) isoformat0 "security_logs" 1%positive σ1
      = (Ret tt, σ2) ∧
    MessageBus.heap σ2 !! 1%positive
      = Some (<["timestamp" := JStr "2024-06-01T12:00:00"]> event0) ∧
    MessageBus.pending "security_logs" σ2 =
      [JObj (<["timestamp" := JStr "2024-06-01T12:00:00"]> event0);
       JObj (<["timestamp" := JStr "2024-06-01T12:00:00"]> event0)].
Proof.
  apply (publish_same_dict_twice (λ v, v) isoformat0 "security_logs" 1%positive
           event0 bus0).
  - reflexivity.
  - reflexivity.
  - reflexivity.
  - apply lookup_singleton_eq.
Defined.

Lemma parser_ignores_text_without_headers_witness :
  LLMAnalysisEngine._parse_analysis_response "no finding"
  = LLMAnalysisEngine.mkAnalysis "unknown" "" [] [].
Proof.
  apply (parser_ignores_text_without_headers "no finding").
  repeat constructor.
Defined.


End MoreExamples.
